(** * The update-thesis route: [PUT /api/admin/thesis/{id}]

    A shallow embedding of [src/app/api/admin/thesis/[id]/route.js] and the
    properties of its handler.  The handler is one [async] function: it
    reads the request body, validates it against a Zod schema, looks up the
    thesis and (optionally) the new author through Prisma, updates the
    thesis row, shapes the response object, resolves the session user and
    appends a history row.  Every [await] is sequential, so the handler is
    modelled as a computation over an explicit store; JavaScript completions
    (normal, [return], [throw]) are kept apart so that the [try]/[catch] of
    the source can be written as it stands. *)

From Stdlib Require Import ZArith String Ascii List Bool Lia.
From Stdlib Require Import Floats.PrimFloat Numbers.Cyclic.Int63.Uint63.
From stdpp Require Import base option list gmap strings.

#[local] Set Warnings "-register-all".

Local Open Scope string_scope.
Local Open Scope list_scope.
Local Open Scope Z_scope.

(** ** JavaScript values that travel as JSON *)

(** What [req.json()] yields and what [NextResponse.json] is given.  An
    object is its list of own properties in insertion order; numbers are
    binary64 as in JavaScript. *)
Inductive json : Type :=
| JNull
| JBool (b : bool)
| JNum (n : float)
| JStr (s : string)
| JArr (items : list json)
| JObj (props : list (string * json)).

(** Property read [o[k]] on an object produced by [JSON.parse] or by an
    object literal: the own property named [k], or [undefined] ([None]).
    The names of an object are distinct; the read takes the first. *)
Fixpoint obj_get (k : string) (props : list (string * json)) : option json :=
  match props with
  | [] => None
  | (k', v) :: rest => if String.eqb k k' then Some v else obj_get k rest
  end.

(** [ToBoolean]: the falsy values are [null], [false], [0], [-0], [NaN]
    and the empty string. *)
Definition truthy (v : json) : bool :=
  match v with
  | JNull => false
  | JBool b => b
  | JNum n => negb (PrimFloat.eqb n 0%float || negb (PrimFloat.eqb n n))
  | JStr s => negb (String.eqb s "")
  | JArr _ => true
  | JObj _ => true
  end.

(** ** Zod *)

(** The part of Zod 3 that [updateThesisSchema] uses.  A failed parse
    carries the list of issues, in the order Zod reports them; an issue has
    a code and the path of the offending value inside the input. *)
Module Zod.

Inductive ZodParsedType : Type :=
| t_undefined | t_null | t_boolean | t_number | t_nan | t_string | t_array | t_object.

Definition getParsedType (input : option json) : ZodParsedType :=
  match input with
  | None => t_undefined
  | Some JNull => t_null
  | Some (JBool _) => t_boolean
  | Some (JNum n) => if PrimFloat.eqb n n then t_number else t_nan
  | Some (JStr _) => t_string
  | Some (JArr _) => t_array
  | Some (JObj _) => t_object
  end.

Definition type_name (t : ZodParsedType) : string :=
  match t with
  | t_undefined => "undefined" | t_null => "null" | t_boolean => "boolean"
  | t_number => "number" | t_nan => "nan" | t_string => "string"
  | t_array => "array" | t_object => "object"
  end.

Inductive PathSeg : Type :=
| Key (k : string)
| Index (i : nat).

(** [invalid_type_enum] is the [invalid_type] issue of [z.enum] for an
    input that is no string: its [expected] is the joined options, and
    Zod builds it with [expected] and [received] in front of [code]. *)
Inductive IssueCode : Type :=
| invalid_type (expected : string) (received : ZodParsedType)
| invalid_type_enum (options : list string) (received : ZodParsedType)
| too_small (minimum : Z)
| invalid_enum_value (options : list string) (received : string).

Record ZodIssue : Type := { code : IssueCode; path : list PathSeg }.

(** A schema maps the path walked so far and the input found there
    ([None] for [undefined]) to the parsed value or to its issues. *)
Definition Result (A : Type) : Type := list ZodIssue + A.
Definition Schema (A : Type) : Type := list PathSeg -> option json -> Result A.

Definition issue (c : IssueCode) (p : list PathSeg) : ZodIssue :=
  {| code := c; path := p |}.

(** Zod keeps parsing after a failure and reports every issue: results
    combine applicatively, issues in evaluation order. *)
Definition ap {A B : Type} (f : Result (A -> B)) (x : Result A) : Result B :=
  match f, x with
  | inr f, inr x => inr (f x)
  | inr _, inl ix => inl ix
  | inl i_f, inr _ => inl i_f
  | inl i_f, inl ix => inl (i_f ++ ix)
  end.

(** [z.string()] *)
Definition string : Schema String.string := fun p input =>
  match input with
  | Some (JStr s) => inr s
  | _ => inl [issue (invalid_type "string" (getParsedType input)) p]
  end.

(** [z.string().min(n)]: the length check runs once the input is known
    to be a string. *)
Definition string_min (n : Z) : Schema String.string := fun p input =>
  match string p input with
  | inr s =>
      if Z.of_nat (String.length s) <? n then inl [issue (too_small n) p]
      else inr s
  | inl i => inl i
  end.

(** The elements of an array input, each parsed at its index. *)
Fixpoint array_items {A : Type} (el : Schema A) (p : list PathSeg) (i : nat)
    (items : list json) : Result (list A) :=
  match items with
  | [] => inr []
  | v :: rest =>
      ap (ap (inr cons) (el (p ++ [Index i]) (Some v)))
         (array_items el p (S i) rest)
  end.

(** [z.array(el)] *)
Definition array {A : Type} (el : Schema A) : Schema (list A) := fun p input =>
  match input with
  | Some (JArr items) => array_items el p 0%nat items
  | _ => inl [issue (invalid_type "array" (getParsedType input)) p]
  end.

Definition joinValues (values : list String.string) : String.string :=
  String.concat " | " (map (fun v => "'" +:+ v +:+ "'") values).

(** [z.enum(values)] *)
Definition enum (values : list String.string) : Schema String.string := fun p input =>
  match input with
  | Some (JStr s) =>
      if existsb (String.eqb s) values then inr s
      else inl [issue (invalid_enum_value values s) p]
  | _ => inl [issue (invalid_type_enum values (getParsedType input)) p]
  end.

(** [schema.optional()] *)
Definition optional {A : Type} (s : Schema A) : Schema (option A) := fun p input =>
  match input with
  | None => inr None
  | Some _ => ap (inr Some) (s p input)
  end.

(** One key of a [z.object] shape: the schema of the key, run on the
    property of that name. *)
Definition field {A : Type} (k : String.string) (s : Schema A)
    (p : list PathSeg) (props : list (String.string * json)) : Result A :=
  s (p ++ [Key k]) (obj_get k props).

End Zod.

(** The validated body: every key of the schema is optional. *)
Module ParsedBody.
Record t : Type := mk {
  title : option string;
  author_name : option string;
  category : option string;
  keywords : option (list string);
  abstract : option string;
  status : option string
}.
End ParsedBody.

(** [const updateThesisSchema = z.object({...})].  Keys are parsed in the
    order of the shape; unknown keys are stripped (Zod's default). *)
Definition updateThesisSchema : Zod.Schema ParsedBody.t := fun p input =>
  match input with
  | Some (JObj props) =>
      Zod.ap (Zod.ap (Zod.ap (Zod.ap (Zod.ap (Zod.ap (inr ParsedBody.mk)
        (Zod.field "title" (Zod.optional (Zod.string_min 1)) p props))
        (Zod.field "author_name" (Zod.optional (Zod.string_min 1)) p props))
        (Zod.field "category" (Zod.optional Zod.string) p props))
        (Zod.field "keywords" (Zod.optional (Zod.array Zod.string)) p props))
        (Zod.field "abstract" (Zod.optional Zod.string) p props))
        (Zod.field "status" (Zod.optional (Zod.enum ["Pending"; "Approved"; "Rejected"])) p props)
  | _ => inl [Zod.issue (Zod.invalid_type "object" (Zod.getParsedType input)) p]
  end.

(** ** Built-ins the handler calls *)

(** Thrown values.  [PrismaError] stands for any rejection of the client. *)
Inductive Exn : Type :=
| SyntaxError (message : string)
| TypeError (message : string)
| RangeError (message : string)
| ZodError (issues : list Zod.ZodIssue)
| PrismaError (message : string).

(** [schema.parse(data)]: the parsed value, or a thrown [ZodError]. *)
Definition parse {A : Type} (schema : Zod.Schema A) (data : json) : Exn + A :=
  match schema [] (Some data) with
  | inr a => inr a
  | inl issues => inl (ZodError issues)
  end.

(** *** [BigInt(string)] *)

(** Strings are kept as their UTF-8 bytes.  [StrWhiteSpaceChar]: the
    white space and line terminators of ECMAScript, each by its encoding:
    TAB, LF, VT, FF, CR, SP, U+00A0, U+1680, U+2000 to U+200A, U+2028,
    U+2029, U+202F, U+205F, U+3000 and U+FEFF. *)
Definition StrWhiteSpaceChar : list (list nat) :=
  [[9]; [10]; [11]; [12]; [13]; [32]; [194; 160]; [225; 154; 128];
   [226; 128; 128]; [226; 128; 129]; [226; 128; 130]; [226; 128; 131];
   [226; 128; 132]; [226; 128; 133]; [226; 128; 134]; [226; 128; 135];
   [226; 128; 136]; [226; 128; 137]; [226; 128; 138]; [226; 128; 168];
   [226; 128; 169]; [226; 128; 175]; [226; 129; 159]; [227; 128; 128];
   [239; 187; 191]]%nat.

(** What is left of [s] after the bytes [prefix], when it starts with them. *)
Fixpoint strip_prefix (prefix : list nat) (s : list ascii) : option (list ascii) :=
  match prefix, s with
  | [], _ => Some s
  | b :: prefix', c :: s' =>
      if (nat_of_ascii c =? b)%nat then strip_prefix prefix' s' else None
  | _ :: _, [] => None
  end.

(** What is left of [s] after the first of the [table] it starts with. *)
Fixpoint strip_any (table : list (list nat)) (s : list ascii) : option (list ascii) :=
  match table with
  | [] => None
  | prefix :: table' =>
      match strip_prefix prefix s with
      | Some rest => Some rest
      | None => strip_any table' s
      end
  end.

(** [s] without the characters of the [table] it starts with; [fuel]
    bounds their number. *)
Fixpoint trim_start (table : list (list nat)) (fuel : nat) (s : list ascii) : list ascii :=
  match fuel with
  | O => s
  | S fuel' =>
      match strip_any table s with
      | Some rest => trim_start table fuel' rest
      | None => s
      end
  end.

(** White space is dropped at both ends; the end is trimmed on the
    reversed bytes, against the reversed encodings. *)
Definition trim (s : string) : string :=
  let l := list_ascii_of_string s in
  let l' := trim_start StrWhiteSpaceChar (length l) l in
  string_of_list_ascii
    (rev (trim_start (map (@rev nat) StrWhiteSpaceChar) (length l') (rev l'))).

Definition digit_value (radix : Z) (c : ascii) : option Z :=
  let n := Z.of_nat (nat_of_ascii c) in
  let v := if (48 <=? n) && (n <=? 57) then n - 48
           else if (97 <=? n) && (n <=? 122) then n - 87
           else if (65 <=? n) && (n <=? 90) then n - 55
           else radix in
  if v <? radix then Some v else None.

Fixpoint digits_value (radix acc : Z) (s : string) : option Z :=
  match s with
  | EmptyString => Some acc
  | String c rest =>
      match digit_value radix c with
      | Some d => digits_value radix (acc * radix + d) rest
      | None => None
      end
  end.

(** One or more digits of the radix. *)
Definition digits (radix : Z) (s : string) : option Z :=
  match s with
  | EmptyString => None
  | _ => digits_value radix 0 s
  end.

(** The radix a literal announces with [0x], [0o] or [0b], and the
    digits after the prefix. *)
Definition radix_prefix (s : string) : option (Z * string) :=
  match s with
  | String c1 (String c2 r) =>
      if Ascii.eqb c1 "0" then
        if Ascii.eqb c2 "x" || Ascii.eqb c2 "X" then Some (16, r)
        else if Ascii.eqb c2 "o" || Ascii.eqb c2 "O" then Some (8, r)
        else if Ascii.eqb c2 "b" || Ascii.eqb c2 "B" then Some (2, r)
        else None
      else None
  | _ => None
  end.

(** [StringToBigInt]: surrounding white space is dropped, the empty
    string is [0n], a decimal literal may carry a sign, a literal with a
    radix prefix may not. *)
Definition StringToBigInt (s : string) : option Z :=
  match trim s with
  | EmptyString => Some 0
  | String c r as t =>
      if Ascii.eqb c "+" then digits 10 r
      else if Ascii.eqb c "-" then Z.opp <$> digits 10 r
      else match radix_prefix t with
           | Some (radix, r') => digits radix r'
           | None => digits 10 t
           end
  end.

Definition BigInt (value : string) : Exn + Z :=
  match StringToBigInt value with
  | Some n => inr n
  | None => inl (SyntaxError ("Cannot convert " +:+ value +:+ " to a BigInt"))
  end.

(** *** [BigInt.prototype.toString()] *)

Definition digit_char (d : Z) : ascii := ascii_of_nat (48 + Z.to_nat d).

(** The decimal digits of [n > 0], most significant first, in front of
    [acc]; [fuel] bounds the number of digits. *)
Fixpoint decimal_digits (fuel : nat) (n : Z) (acc : string) : string :=
  match fuel with
  | O => acc
  | S fuel' =>
      if n <=? 0 then acc
      else decimal_digits fuel' (n / 10) (String (digit_char (n mod 10)) acc)
  end.

Definition decimal (n : Z) : string :=
  if n =? 0 then "0" else decimal_digits (S (Z.to_nat (Z.log2 n))) n "".

Definition BigInt_toString (n : Z) : string :=
  if n <? 0 then String "-" (decimal (- n)) else decimal n.

(** *** [Date.prototype.toISOString()] *)

(** A [Date] is its time value, in milliseconds since the epoch; a time
    value beyond 8.64e15 either way stands for an invalid date. *)
Definition Date : Type := Z.

Definition msPerDay : Z := 86400000.

(** Year, month (1 to 12) and day of the month of a day number, days
    counted from 1970-01-01 in the proleptic Gregorian calendar. *)
Definition civil_from_days (days : Z) : Z * Z * Z :=
  let z := days + 719468 in
  let era := z / 146097 in
  let doe := z mod 146097 in
  let yoe := (doe - doe / 1460 + doe / 36524 - doe / 146096) / 365 in
  let doy := doe - (365 * yoe + yoe / 4 - yoe / 100) in
  let mp := (5 * doy + 2) / 153 in
  let d := doy - (153 * mp + 2) / 5 + 1 in
  let m := if mp <? 10 then mp + 3 else mp - 9 in
  (yoe + era * 400 + (if m <=? 2 then 1 else 0), m, d).

(** The [k] low decimal digits of [n], zero padded. *)
Fixpoint pad (k : nat) (n : Z) : string :=
  match k with
  | O => ""
  | S k' => pad k' (n / 10) +:+ String (digit_char (n mod 10)) ""
  end.

Definition year_string (y : Z) : string :=
  if (0 <=? y) && (y <=? 9999) then pad 4 y
  else (if y <? 0 then "-" else "+") +:+ pad 6 (Z.abs y).

Definition toISOString (d : Date) : Exn + string :=
  if 8640000000000000 <? Z.abs d then inl (RangeError "Invalid time value")
  else
    let ms := d mod msPerDay in
    let '(y, m, dd) := civil_from_days (d / msPerDay) in
    inr (year_string y +:+ "-" +:+ pad 2 m +:+ "-" +:+ pad 2 dd +:+ "T" +:+
         pad 2 (ms / 3600000) +:+ ":" +:+ pad 2 (ms / 60000 mod 60) +:+ ":" +:+
         pad 2 (ms / 1000 mod 60) +:+ "." +:+ pad 3 (ms mod 1000) +:+ "Z").

(** ** The store behind Prisma *)

Module User.
Record t : Type := mk { id : Z; username : string; email : string }.
End User.

(** A row of the thesis table, without its key. *)
Module ThesisRow.
Record t : Type := mk {
  title : string;
  category : string;
  keywords : list string;
  abstract : string;
  status : string;
  author_id : Z;
  created_at : Date;
  updated_at : Date
}.
End ThesisRow.

(** The object Prisma hands back for a thesis: the scalar columns, and the
    [author] relation only when the query asks for it ([include]). *)
Module Thesis.
Record t : Type := mk {
  thesis_id : Z;
  title : string;
  category : string;
  keywords : list string;
  abstract : string;
  status : string;
  author_id : Z;
  created_at : Date;
  updated_at : Date;
  author : option User.t
}.
End Thesis.

(** The [data] argument of [prisma.thesis.update] as the handler builds it. *)
Module ThesisUpdateInput.
Record t : Type := mk {
  title : string;
  category : string;
  keywords : list string;
  abstract : string;
  status : string;
  author_id : Z
}.
End ThesisUpdateInput.

(** The [data] argument of [prisma.history.create]. *)
Module History.
Record t : Type := mk { user_id : Z; action : string; description : string }.
End History.

(** The calls made on the Prisma client, in the order they are awaited. *)
Inductive DbCall : Type :=
| thesis_findUnique (thesis_id : Z)
| user_findUnique (username : string)
| thesis_update (thesis_id : Z) (data : ThesisUpdateInput.t)
| history_create (data : History.t).

(** The world a request runs in: the three tables, the clock of the
    store, and the log of client calls.  Theses are keyed by [thesis_id];
    history rows are kept in insertion order. *)
Record World : Type := mkWorld {
  theses : gmap Z ThesisRow.t;
  users : list User.t;
  history : list History.t;
  now : Date;
  calls : list DbCall
}.

(** ** Completions *)

Record Response : Type := mkResponse { body : json; status : Z }.

(** How a statement ends: normally with a value, by [return] from the
    handler, or by [throw]. *)
Inductive completion (A : Type) : Type :=
| Normal (a : A)
| Return (r : Response)
| Throw (e : Exn).
Arguments Normal {A} a.
Arguments Return {A} r.
Arguments Throw {A} e.

(** Effects on the world survive a [throw]: the world is threaded through
    every completion. *)
Definition M (A : Type) : Type := World -> completion A * World.

#[export] Instance M_ret : MRet M := fun A a w => (Normal a, w).

#[export] Instance M_bind : MBind M := fun A B f m w =>
  match m w with
  | (Normal a, w') => f a w'
  | (Return r, w') => (Return r, w')
  | (Throw e, w') => (Throw e, w')
  end.

Definition js_return {A : Type} (r : Response) : M A := fun w => (Return r, w).
Definition throw {A : Type} (e : Exn) : M A := fun w => (Throw e, w).

(** A built-in that either throws or yields a value. *)
Definition lift {A : Type} (r : Exn + A) : M A :=
  match r with
  | inr a => mret a
  | inl e => throw e
  end.

(** [try { body } catch (error) { handler }] *)
Definition try_catch {A : Type} (body : M A) (handler : Exn -> M A) : M A := fun w =>
  match body w with
  | (Throw e, w') => handler e w'
  | other => other
  end.

Definition get : M World := fun w => (Normal w, w).
Definition modify (f : World -> World) : M unit := fun w => (Normal tt, f w).

Definition record_call (c : DbCall) : M unit :=
  modify (fun w => mkWorld (theses w) (users w) (history w) (now w) (calls w ++ [c])).

(** ** The Prisma client *)

(** Modelled from the spec: the Prisma schema and the client of
    [@/app/lib/db] are not part of the source.  The data model of the spec
    gives the columns; [thesis_id] and [username] are the unique keys the
    handler queries by; [updated_at] is refreshed by every update (the spec
    excludes it when it compares stored states).  Keys are integers
    without a bound: the width of the column is set in the schema. *)
Module prisma.

Definition thesis_object (id : Z) (r : ThesisRow.t) (author : option User.t) : Thesis.t :=
  Thesis.mk id (ThesisRow.title r) (ThesisRow.category r) (ThesisRow.keywords r)
    (ThesisRow.abstract r) (ThesisRow.status r) (ThesisRow.author_id r)
    (ThesisRow.created_at r) (ThesisRow.updated_at r) author.

Definition user_by_id (us : list User.t) (id : Z) : option User.t :=
  List.find (fun u => User.id u =? id) us.

Definition user_by_username (us : list User.t) (name : string) : option User.t :=
  List.find (fun u => String.eqb (User.username u) name) us.

Module thesis.

(** [prisma.thesis.findUnique({ where: { thesis_id }, include })]:
    without [include: { author: true }] the object has no [author]. *)
Definition findUnique (thesis_id : Z) (include_author : bool) : M (option Thesis.t) :=
  _ ← record_call (thesis_findUnique thesis_id);
  w ← get;
  mret (r ← theses w !! thesis_id;
        Some (thesis_object thesis_id r
                (if include_author
                 then user_by_id (users w) (ThesisRow.author_id r)
                 else None))).

Definition apply (data : ThesisUpdateInput.t) (old : ThesisRow.t) (t : Date) : ThesisRow.t :=
  ThesisRow.mk (ThesisUpdateInput.title data) (ThesisUpdateInput.category data)
    (ThesisUpdateInput.keywords data) (ThesisUpdateInput.abstract data)
    (ThesisUpdateInput.status data) (ThesisUpdateInput.author_id data)
    (ThesisRow.created_at old) t.

(** [prisma.thesis.update({ where: { thesis_id }, data })]: rejects when
    no row has the key, otherwise stores and returns the new row. *)
Definition update (thesis_id : Z) (data : ThesisUpdateInput.t) : M Thesis.t :=
  _ ← record_call (thesis_update thesis_id data);
  w ← get;
  match theses w !! thesis_id with
  | None => throw (PrismaError "Record to update not found.")
  | Some old =>
      let r := apply data old (now w) in
      _ ← modify (fun w => mkWorld (<[thesis_id := r]> (theses w)) (users w)
                             (history w) (now w) (calls w));
      mret (thesis_object thesis_id r None)
  end.

End thesis.

Module user.
(** [prisma.user.findUnique({ where: { username } })] *)
Definition findUnique (username : string) : M (option User.t) :=
  _ ← record_call (user_findUnique username);
  w ← get;
  mret (user_by_username (users w) username).
End user.

Module history.
(** [prisma.history.create({ data })] *)
Definition create (data : History.t) : M unit :=
  _ ← record_call (history_create data);
  modify (fun w => mkWorld (theses w) (users w) (history w ++ [data]) (now w) (calls w)).
End history.

End prisma.

(** ** The request *)

(** What the handler reads from the request: the settlement of
    [req.json()] (the parsed body, or the [SyntaxError] it rejects with
    when the body is empty or is not JSON text), and the user of the
    current session ([null] when there is none). *)
Record Request : Type := mkRequest {
  json_body : Exn + json;
  session_user : option User.t
}.

(** The route parameters: the [id] segment of the path. *)
Module Params.
Record t : Type := mk { id : string }.
End Params.

Definition req_json (req : Request) : M json := lift (json_body req).

(** Modelled from the spec: [getUserFromSession] of
    [@/app/lib/currentSesion] is not part of the source; it resolves the
    acting user from the current session, and is [null] when there is
    none. *)
Definition getUserFromSession (req : Request) : M (option User.t) :=
  mret (session_user req).

(** ** The handler *)

Module NextResponse.
(** [NextResponse.json(body, { status })]; the status defaults to 200. *)
Definition json (body : json) (status : option Z) : Response :=
  mkResponse body (default 200 status).
End NextResponse.

(** [a ?? b] *)
Definition nullish {A : Type} (a : option A) (b : A) : A := default b a.
Infix "??" := nullish (at level 45, left associativity).

(** Reading a property of a value that may be [absent], which is
    [undefined] or [null]. *)
Definition property {A B : Type} (absent : string) (o : option A) (f : A -> B)
    (name : string) : M B :=
  match o with
  | Some a => mret (f a)
  | None => throw (TypeError ("Cannot read properties of " +:+ absent +:+ " (reading '"
                                +:+ name +:+ "')"))
  end.

Definition dquote : string := String "034"%char EmptyString.

Definition message (text : string) : string * json := ("message", JStr text).

(** The body of the [try] block, lines 21 to 91. *)
Definition PUT_try (req : Request) (id : string) : M Empty_set :=
  body ← req_json req;
  _ ← (if negb (truthy body)
       then js_return (NextResponse.json
              (JObj [message "Request body is empty or malformed"]) (Some 400))
       else mret tt);
  (* Step 1: validate the request body *)
  parsedBody ← lift (parse updateThesisSchema body);
  (* Step 2: find the thesis by id *)
  where_id ← lift (BigInt id);
  thesis ← prisma.thesis.findUnique where_id false;
  match thesis with
  | None => js_return (NextResponse.json (JObj [message "Thesis not found"]) (Some 404))
  | Some thesis =>
      (* Step 3: find the author by name if provided *)
      author ← match ParsedBody.author_name parsedBody with
               | Some name =>
                   if truthy (JStr name) then
                     author ← prisma.user.findUnique name;
                     match author with
                     | None => js_return (NextResponse.json
                                 (JObj [message "Author not found"]) (Some 404))
                     | Some a => mret (Some a)
                     end
                   else mret None
               | None => mret None
               end;
      (* Step 4: update the thesis fields if provided *)
      where_id ← lift (BigInt id);
      updatedThesis ← prisma.thesis.update where_id
        (ThesisUpdateInput.mk
           (ParsedBody.title parsedBody ?? Thesis.title thesis)
           (ParsedBody.category parsedBody ?? Thesis.category thesis)
           (ParsedBody.keywords parsedBody ?? Thesis.keywords thesis)
           (ParsedBody.abstract parsedBody ?? Thesis.abstract thesis)
           (ParsedBody.status parsedBody ?? Thesis.status thesis)
           ((User.id <$> author) ?? Thesis.author_id thesis));
      (* Step 5: prepare the response object *)
      author_name ← match author with
                    | Some a => mret (User.username a)
                    | None => property "undefined" (Thesis.author thesis) User.username
                                "username"
                    end;
      created_at ← lift (toISOString (Thesis.created_at updatedThesis));
      updated_at ← lift (toISOString (Thesis.updated_at updatedThesis));
      let thesisResponse := JObj [
        ("thesis_id", JStr (BigInt_toString (Thesis.thesis_id updatedThesis)));
        ("title", JStr (Thesis.title updatedThesis));
        ("author_name", JStr author_name);
        ("category", JStr (Thesis.category updatedThesis));
        ("keywords", JArr (JStr <$> Thesis.keywords updatedThesis));
        ("abstract", JStr (Thesis.abstract updatedThesis));
        ("status", JStr (Thesis.status updatedThesis));
        ("created_at", JStr created_at);
        ("updated_at", JStr updated_at)
      ] in
      currentUser ← getUserFromSession req;
      (* Step 6: log the action in the history *)
      user_id ← property "null" currentUser User.id "id";
      email ← property "null" currentUser User.email "email";
      _ ← prisma.history.create
            (History.mk user_id "Updated Thesis"
               ("Thesis titled " +:+ dquote +:+ Thesis.title updatedThesis +:+ dquote
                  +:+ " updated by " +:+ email));
      js_return (NextResponse.json
        (JObj [message "Thesis updated successfully"; ("thesis", thesisResponse)]) None)
  end.

(** A number that is a count or an index. *)
Definition JInt (n : Z) : json := JNum (PrimFloat.of_uint63 (Uint63.of_Z n)).

(** A Zod issue as it is serialised in the [errors] array. *)
Module ZodJson.

Definition segment (s : Zod.PathSeg) : json :=
  match s with
  | Zod.Key k => JStr k
  | Zod.Index i => JInt (Z.of_nat i)
  end.

Definition issue (i : Zod.ZodIssue) : json :=
  let path := ("path", JArr (segment <$> Zod.path i)) in
  match Zod.code i with
  | Zod.invalid_type expected received =>
      JObj [("code", JStr "invalid_type"); ("expected", JStr expected);
            ("received", JStr (Zod.type_name received)); path;
            message (match received with
                     | Zod.t_undefined => "Required"
                     | _ => "Expected " +:+ expected +:+ ", received "
                              +:+ Zod.type_name received
                     end)]
  | Zod.invalid_type_enum options received =>
      JObj [("expected", JStr (Zod.joinValues options));
            ("received", JStr (Zod.type_name received));
            ("code", JStr "invalid_type"); path;
            message (match received with
                     | Zod.t_undefined => "Required"
                     | _ => "Expected " +:+ Zod.joinValues options +:+ ", received "
                              +:+ Zod.type_name received
                     end)]
  | Zod.too_small minimum =>
      JObj [("code", JStr "too_small"); ("minimum", JInt minimum);
            ("type", JStr "string"); ("inclusive", JBool true);
            ("exact", JBool false);
            message ("String must contain at least " +:+ BigInt_toString minimum
                       +:+ " character(s)");
            path]
  | Zod.invalid_enum_value options received =>
      JObj [("received", JStr received); ("code", JStr "invalid_enum_value");
            ("options", JArr (JStr <$> options)); path;
            message ("Invalid enum value. Expected " +:+ Zod.joinValues options
                       +:+ ", received '" +:+ received +:+ "'")]
  end.

End ZodJson.

(** [error.message || error] for the values the [try] block can throw. *)
Definition error_message (error : Exn) : json :=
  let text := match error with
              | SyntaxError m | TypeError m | RangeError m | PrismaError m => m
              | ZodError _ => ""
              end in
  if truthy (JStr text) then JStr text else JObj [].

(** The [catch] block, lines 92 to 101 ([console.error] writes to the
    server log only and is left out). *)
Definition PUT_catch (error : Exn) : M Empty_set :=
  match error with
  | ZodError issues =>
      js_return (NextResponse.json
        (JObj [message "Validation failed"; ("errors", JArr (ZodJson.issue <$> issues))])
        (Some 400))
  | _ =>
      js_return (NextResponse.json
        (JObj [message "Internal Server Error"; ("error", error_message error)])
        (Some 500))
  end.

(** How the promise of an [async] function settles. *)
Definition settle (c : completion Empty_set) : Exn + Response :=
  match c with
  | Normal nothing => match nothing with end
  | Return r => inr r
  | Throw e => inl e
  end.

(** [export const PUT = withRolePermission("MODIFY_THESIS")(async (req, { params }) => ...)]:
    the handler that the permission wrapper is given. *)
Definition PUT (req : Request) (params : Params.t) (w : World) : (Exn + Response) * World :=
  let '(c, w') := try_catch (PUT_try req (Params.id params)) PUT_catch w in
  (settle c, w').

(** * The vocabulary of the properties *)

(** ** Worlds and answers along the handler *)

(** The world after the client calls [cs] were logged. *)
Definition logged (cs : list DbCall) (w : World) : World :=
  mkWorld (theses w) (users w) (history w) (now w) (calls w ++ cs).

(** The [data] of the update (lines 54 to 61) in terms of the stored row. *)
Definition update_data (b : ParsedBody.t) (author : option User.t) (row : ThesisRow.t)
    : ThesisUpdateInput.t :=
  ThesisUpdateInput.mk
    (ParsedBody.title b ?? ThesisRow.title row)
    (ParsedBody.category b ?? ThesisRow.category row)
    (ParsedBody.keywords b ?? ThesisRow.keywords row)
    (ParsedBody.abstract b ?? ThesisRow.abstract row)
    (ParsedBody.status b ?? ThesisRow.status row)
    ((User.id <$> author) ?? ThesisRow.author_id row).

(** The world once the thesis [n] was looked up, the author (if any was
    named) was looked up, and the row was updated with [data]. *)
Definition updated (n : Z) (b : ParsedBody.t) (author : option User.t) (row : ThesisRow.t)
    (w : World) : World :=
  let data := update_data b author row in
  mkWorld (<[n := prisma.thesis.apply data row (now w)]> (theses w)) (users w)
    (history w) (now w)
    (calls w ++ [thesis_findUnique n]
       ++ match author with Some a => [user_findUnique (User.username a)] | None => [] end
       ++ [thesis_update n data]).

(** The answer of the [catch] block to a thrown value. *)
Definition caught (e : Exn) : Response :=
  match e with
  | ZodError issues =>
      NextResponse.json
        (JObj [message "Validation failed"; ("errors", JArr (ZodJson.issue <$> issues))])
        (Some 400)
  | _ =>
      NextResponse.json
        (JObj [message "Internal Server Error"; ("error", error_message e)]) (Some 500)
  end.

(** The object built at lines 65 to 75 from the stored row [r] of key [n]. *)
Definition thesisResponse (n : Z) (r : ThesisRow.t) (author_name created_at updated_at : string)
    : json :=
  JObj [("thesis_id", JStr (BigInt_toString n));
        ("title", JStr (ThesisRow.title r));
        ("author_name", JStr author_name);
        ("category", JStr (ThesisRow.category r));
        ("keywords", JArr (JStr <$> ThesisRow.keywords r));
        ("abstract", JStr (ThesisRow.abstract r));
        ("status", JStr (ThesisRow.status r));
        ("created_at", JStr created_at);
        ("updated_at", JStr updated_at)].

(** The history row written at lines 80 to 86. *)
Definition audit (title : string) (currentUser : User.t) : History.t :=
  History.mk (User.id currentUser) "Updated Thesis"
    ("Thesis titled " +:+ dquote +:+ title +:+ dquote +:+ " updated by "
       +:+ User.email currentUser).

(** The world after the history row [h] was created. *)
Definition audited (h : History.t) (w : World) : World :=
  mkWorld (theses w) (users w) (history w ++ [h]) (now w) (calls w ++ [history_create h]).

(** ** A running example *)

(** The scenario of the spec: thesis 7, titled "X", written by alice; the
    request comes from an administrator. *)
Module Scenario.

Definition alice : User.t := User.mk 1 "alice" "alice@example.org".
Definition admin : User.t := User.mk 2 "admin" "admin@example.org".

Definition thesis_X : ThesisRow.t :=
  ThesisRow.mk "X" "ML" ["learning"; "vision"] "An abstract." "Pending" 1
    1700000000000 1700000000000.

Definition world : World :=
  mkWorld {[ 7 := thesis_X ]} [alice; admin] [] 1700000100000 [].

Definition put (props : list (string * json)) : Request :=
  mkRequest (inr (JObj props)) (Some admin).

Definition params : Params.t := Params.mk "7".

End Scenario.

(** ** Requests and their outcome *)

(** The request names an author: its body is an object whose
    [author_name] is the string [name]. *)
Definition supplies_author_name (req : Request) (name : string) : Prop :=
  exists props, json_body req = inr (JObj props)
                /\ obj_get "author_name" props = Some (JStr name).

(** The path id is the key [n]. *)
Definition path_id (params : Params.t) (n : Z) : Prop :=
  BigInt (Params.id params) = inr n.

(** The handler answers [r] and leaves the tables of [w'] behind. *)
Definition answers (req : Request) (params : Params.t) (w : World)
    (r : Response) (w' : World) : Prop :=
  PUT req params w = (inr r, w').

(** The body of the request passes validation and parses to [b]. *)
Definition passes_validation (req : Request) (b : ParsedBody.t) : Prop :=
  exists body, json_body req = inr body /\ parse updateThesisSchema body = inr b.

(** No table was written. *)
Definition unchanged (w w' : World) : Prop :=
  theses w' = theses w /\ history w' = history w /\ users w' = users w.

(** The body of the request was read and violates the schema. *)
Definition violates_schema (req : Request) : Prop :=
  exists payload issues,
    json_body req = inr payload /\ updateThesisSchema [] (Some payload) = inl issues.

(** The path id is no integer: [BigInt] throws on it. *)
Definition path_id_throws (params : Params.t) : Prop :=
  exists e, BigInt (Params.id params) = inl e.


(** C4 as the claim states it, for one request in one world. *)
Definition unknown_author_as_stated (req : Request) (params : Params.t) (w : World) : Prop :=
  forall name,
    supplies_author_name req name ->
    prisma.user_by_username (users w) name = None ->
    exists r w', answers req params w r w' /\ status r = 404 /\ unchanged w w'.


(** ** Issues of a failed validation *)

(** The issues of a result; none when it succeeded. *)
Definition issues_of {A : Type} (r : Zod.Result A) : list Zod.ZodIssue :=
  match r with
  | inl issues => issues
  | inr _ => []
  end.

(** A failed result reports at least one issue. *)
Definition reports {A : Type} (r : Zod.Result A) : Prop :=
  match r with
  | inl issues => issues <> []
  | inr _ => True
  end.

(** Every issue of the result lies at or below the path [p]. *)
Definition below {A : Type} (p : list Zod.PathSeg) (r : Zod.Result A) : Prop :=
  Forall (fun i => exists rest, Zod.path i = p ++ rest) (issues_of r).

(** What every schema of the shape satisfies. *)
Definition sound {A : Type} (s : Zod.Schema A) : Prop :=
  forall p input, reports (s p input) /\ below p (s p input).

(** The issues of each key of the shape, in the order of the shape. *)
Definition shape_issues (props : list (string * json)) : list (string * list Zod.ZodIssue) :=
  [("title", issues_of (Zod.field "title" (Zod.optional (Zod.string_min 1)) [] props));
   ("author_name", issues_of (Zod.field "author_name" (Zod.optional (Zod.string_min 1)) [] props));
   ("category", issues_of (Zod.field "category" (Zod.optional Zod.string) [] props));
   ("keywords", issues_of (Zod.field "keywords" (Zod.optional (Zod.array Zod.string)) [] props));
   ("abstract", issues_of (Zod.field "abstract" (Zod.optional Zod.string) [] props));
   ("status", issues_of (Zod.field "status"
                           (Zod.optional (Zod.enum ["Pending"; "Approved"; "Rejected"])) []
                           props))].

(** The enumeration of [status]. *)
Definition statuses : list string := ["Pending"; "Approved"; "Rejected"].

(** The issues are the issues of the keys, each under its key; the
    violations the claim names are among them: a [status] outside the
    enumeration, an empty [title], and a value of the wrong type under
    each of the six keys. *)
Definition lists_violations_per_field (props : list (string * json))
    (issues : list Zod.ZodIssue) : Prop :=
  issues = concat (snd <$> shape_issues props)
  /\ (forall k key_issues,
        In (k, key_issues) (shape_issues props) ->
        Forall (fun i => exists rest, Zod.path i = Zod.Key k :: rest) key_issues)
  /\ (forall s,
        obj_get "status" props = Some (JStr s) -> ~ In s statuses ->
        In (Zod.issue (Zod.invalid_enum_value statuses s) [Zod.Key "status"]) issues)
  /\ (obj_get "title" props = Some (JStr "") ->
        In (Zod.issue (Zod.too_small 1) [Zod.Key "title"]) issues)
  /\ (forall k v,
        In k ["title"; "author_name"; "category"; "abstract"] ->
        obj_get k props = Some v ->
        Zod.getParsedType (Some v) <> Zod.t_string ->
        In (Zod.issue (Zod.invalid_type "string" (Zod.getParsedType (Some v))) [Zod.Key k])
           issues)
  /\ (forall v,
        obj_get "keywords" props = Some v ->
        Zod.getParsedType (Some v) <> Zod.t_array ->
        In (Zod.issue (Zod.invalid_type "array" (Zod.getParsedType (Some v)))
              [Zod.Key "keywords"]) issues)
  /\ (forall items i v,
        obj_get "keywords" props = Some (JArr items) ->
        items !! i = Some v ->
        Zod.getParsedType (Some v) <> Zod.t_string ->
        In (Zod.issue (Zod.invalid_type "string" (Zod.getParsedType (Some v)))
              [Zod.Key "keywords"; Zod.Index i]) issues)
  /\ (forall v,
        obj_get "status" props = Some v ->
        Zod.getParsedType (Some v) <> Zod.t_string ->
        In (Zod.issue (Zod.invalid_type_enum statuses (Zod.getParsedType (Some v)))
              [Zod.Key "status"]) issues).

(** C6 as the claim states it, for one request in one world. *)
Definition schema_violation_as_stated (req : Request) (params : Params.t) (w : World) : Prop :=
  forall payload issues,
    json_body req = inr payload ->
    updateThesisSchema [] (Some payload) = inl issues ->
    exists r w' fields errors,
      answers req params w r w' /\ status r = 400
      /\ body r = JObj fields /\ obj_get "errors" fields = Some (JArr errors).

(** ** Rows before and after an update *)

(** What the body says about one stored column: a key that is present
    carries the new value, a key that is absent leaves the old one. *)
Definition patched {A : Type} (sent : option json) (encode : A -> json) (old new : A) : Prop :=
  match sent with
  | Some v => v = encode new
  | None => new = old
  end.

(** The row [new] is the row [old] patched by the properties [props];
    [author_name] is stored as the id of the user of that name. *)
Definition merged (props : list (string * json)) (us : list User.t)
    (old new : ThesisRow.t) : Prop :=
  patched (obj_get "title" props) JStr (ThesisRow.title old) (ThesisRow.title new)
  /\ patched (obj_get "category" props) JStr (ThesisRow.category old) (ThesisRow.category new)
  /\ patched (obj_get "keywords" props) (fun l => JArr (JStr <$> l))
       (ThesisRow.keywords old) (ThesisRow.keywords new)
  /\ patched (obj_get "abstract" props) JStr (ThesisRow.abstract old) (ThesisRow.abstract new)
  /\ patched (obj_get "status" props) JStr (ThesisRow.status old) (ThesisRow.status new)
  /\ match obj_get "author_name" props with
     | Some v => exists u, In u us /\ v = JStr (User.username u)
                           /\ ThesisRow.author_id new = User.id u
     | None => ThesisRow.author_id new = ThesisRow.author_id old
     end
  /\ ThesisRow.created_at new = ThesisRow.created_at old.

(** The author the handler holds after step 3. *)
Definition resolved (us : list User.t) (b : ParsedBody.t) (author : option User.t) : Prop :=
  match ParsedBody.author_name b with
  | Some name => prisma.user_by_username us name = author /\ is_Some author
  | None => author = None
  end.

(** C7 as the claim states it, for one request in one world. *)
Definition merge_patch_as_stated (req : Request) (params : Params.t) (w : World) : Prop :=
  forall props b n row,
    json_body req = inr (JObj props) ->
    parse updateThesisSchema (JObj props) = inr b ->
    path_id params n ->
    theses w !! n = Some row ->
    exists r w' row',
      answers req params w r w'
      /\ theses w' !! n = Some row'
      /\ merged props (users w') row row'.

(** The world when the next request arrives: the tables are as the last
    request left them, the clock reads [t]. *)
Definition at_time (t : Date) (w : World) : World :=
  mkWorld (theses w) (users w) (history w) t (calls w).

(** The row with another [updated_at], everything else the same. *)
Definition stamped (t : Date) (r : ThesisRow.t) : ThesisRow.t :=
  ThesisRow.mk (ThesisRow.title r) (ThesisRow.category r) (ThesisRow.keywords r)
    (ThesisRow.abstract r) (ThesisRow.status r) (ThesisRow.author_id r)
    (ThesisRow.created_at r) t.

(** Every key of the schema is present. *)
Definition full (props : list (string * json)) : Prop :=
  Forall (fun k => is_Some (obj_get k props))
    ["title"; "author_name"; "category"; "keywords"; "abstract"; "status"].

(** ** Printed identifiers and timestamps *)

(** A decimal digit. *)
Definition is_digit (c : ascii) : bool :=
  let n := nat_of_ascii c in ((48 <=? n) && (n <=? 57))%nat.

(** A decimal digit or a minus sign. *)
Definition plain (c : ascii) : bool := is_digit c || Ascii.eqb c "-".

(** Every character of [s] passes [f]. *)
Fixpoint all (f : ascii -> bool) (s : string) : bool :=
  match s with
  | EmptyString => true
  | String c rest => f c && all f rest
  end.

(** A decimal integer literal: an optional minus sign and one or more
    decimal digits. *)
Definition decimal_literal (s : string) : bool :=
  match s with
  | EmptyString => false
  | String c rest =>
      if Ascii.eqb c "-" then negb (String.eqb rest "") && all is_digit rest
      else all is_digit s
  end.

(** The number written by two decimal digits. *)
Definition two_digits (a b : ascii) : option Z :=
  match digit_value 10 a, digit_value 10 b with
  | Some x, Some y => Some (10 * x + y)
  | _, _ => None
  end.

(** The number is there and lies between [lo] and [hi]. *)
Definition within (lo hi : Z) (v : option Z) : bool :=
  match v with
  | Some v => (lo <=? v) && (v <=? hi)
  | None => false
  end.

(** [-MM-DDTHH:mm:ss.sssZ]: month 01 to 12, day 01 to 31, hour 00 to 23,
    minute and second 00 to 59, three digits of milliseconds, and the
    zone designator of UTC. *)
Definition month_to_zone (s : string) : bool :=
  match list_ascii_of_string s with
  | [c1; m1; m2; c2; d1; d2; t; h1; h2; c3; n1; n2; c4; s1; s2; c5; f1; f2; f3; z] =>
      Ascii.eqb c1 "-" && within 1 12 (two_digits m1 m2)
      && Ascii.eqb c2 "-" && within 1 31 (two_digits d1 d2)
      && Ascii.eqb t "T" && within 0 23 (two_digits h1 h2)
      && Ascii.eqb c3 ":" && within 0 59 (two_digits n1 n2)
      && Ascii.eqb c4 ":" && within 0 59 (two_digits s1 s2)
      && Ascii.eqb c5 "." && is_digit f1 && is_digit f2 && is_digit f3
      && Ascii.eqb z "Z"
  | _ => false
  end.

(** An ISO 8601 date-time in the extended format, complete to the
    millisecond, in UTC: a year of four digits, or a signed year of six
    digits, and then month to zone. *)
Definition iso8601 (s : string) : bool :=
  match s with
  | String y1 (String y2 (String y3 (String y4 rest))) =>
      if is_digit y1 then is_digit y2 && is_digit y3 && is_digit y4 && month_to_zone rest
      else
        (Ascii.eqb y1 "+" || Ascii.eqb y1 "-")
        && match rest with
           | String y5 (String y6 (String y7 rest')) =>
               is_digit y2 && is_digit y3 && is_digit y4 && is_digit y5 && is_digit y6
               && is_digit y7 && month_to_zone rest'
           | _ => false
           end
  | _ => false
  end.

(** The day number, days counted from 1970-01-01, of a date of the
    proleptic Gregorian calendar. *)
Definition days_from_civil (y m d : Z) : Z :=
  let y' := if m <=? 2 then y - 1 else y in
  let era := y' / 400 in
  let yoe := y' - era * 400 in
  let mp := if 2 <? m then m - 3 else m + 9 in
  let doy := (153 * mp + 2) / 5 + d - 1 in
  let doe := yoe * 365 + yoe / 4 - yoe / 100 + doy in
  era * 146097 + doe - 719468.

(** The number written by decimal digits. *)
Definition read_digits (cs : list ascii) : option Z :=
  digits_value 10 0 (string_of_list_ascii cs).

(** Month, day and millisecond of the day written as
    [-MM-DDTHH:mm:ss.sssZ]. *)
Definition read_month_to_zone (s : string) : option (Z * Z * Z) :=
  match list_ascii_of_string s with
  | [c1; m1; m2; c2; d1; d2; t; h1; h2; c3; n1; n2; c4; s1; s2; c5; f1; f2; f3; z] =>
      m ← read_digits [m1; m2];
      d ← read_digits [d1; d2];
      h ← read_digits [h1; h2];
      n ← read_digits [n1; n2];
      sec ← read_digits [s1; s2];
      f ← read_digits [f1; f2; f3];
      Some (m, d, h * 3600000 + n * 60000 + sec * 1000 + f)
  | _ => None
  end.

(** The time value that an ISO 8601 date-time denotes, which is what
    [Date.parse] returns for the texts [toISOString] writes: the day
    number of the date, in milliseconds, and the time of the day. *)
Definition Date_parse (s : string) : option Date :=
  if iso8601 s then
    match s with
    | String y1 (String y2 (String y3 (String y4 rest))) =>
        if is_digit y1 then
          y ← read_digits [y1; y2; y3; y4];
          '(m, d, ms) ← read_month_to_zone rest;
          Some (days_from_civil y m d * msPerDay + ms)
        else
          match rest with
          | String y5 (String y6 (String y7 rest')) =>
              y ← read_digits [y2; y3; y4; y5; y6; y7];
              '(m, d, ms) ← read_month_to_zone rest';
              Some (days_from_civil (if Ascii.eqb y1 "-" then - y else y) m d * msPerDay + ms)
          | _ => None
          end
    | _ => None
    end
  else None.

(** [part] occurs in [whole]. *)
Definition contains (part whole : string) : Prop :=
  exists before after, whole = before +:+ part +:+ after.

(** ** Every path through the handler *)

(** A time value that a [Date] can hold. *)
Definition valid_time (d : Date) : Prop := Z.abs d <= 8640000000000000.

(** The answer and the world at the end of each path of [PUT], with the
    conditions under which the path is taken. *)
Inductive PUT_path (req : Request) (params : Params.t) (w : World)
    : Response -> World -> Prop :=
| path_json_rejects e :
    json_body req = inl e ->
    PUT_path req params w (caught e) w
| path_falsy_body payload :
    json_body req = inr payload ->
    truthy payload = false ->
    PUT_path req params w
      (NextResponse.json (JObj [message "Request body is empty or malformed"]) (Some 400)) w
| path_invalid_body payload issues :
    json_body req = inr payload ->
    truthy payload = true ->
    updateThesisSchema [] (Some payload) = inl issues ->
    PUT_path req params w (caught (ZodError issues)) w
| path_bad_id payload b e :
    json_body req = inr payload ->
    parse updateThesisSchema payload = inr b ->
    BigInt (Params.id params) = inl e ->
    PUT_path req params w (caught e) w
| path_thesis_not_found payload b n :
    json_body req = inr payload ->
    parse updateThesisSchema payload = inr b ->
    BigInt (Params.id params) = inr n ->
    theses w !! n = None ->
    PUT_path req params w
      (NextResponse.json (JObj [message "Thesis not found"]) (Some 404))
      (logged [thesis_findUnique n] w)
| path_author_not_found payload b n row name :
    json_body req = inr payload ->
    parse updateThesisSchema payload = inr b ->
    BigInt (Params.id params) = inr n ->
    theses w !! n = Some row ->
    ParsedBody.author_name b = Some name ->
    prisma.user_by_username (users w) name = None ->
    PUT_path req params w
      (NextResponse.json (JObj [message "Author not found"]) (Some 404))
      (logged [thesis_findUnique n; user_findUnique name] w)
| path_author_omitted payload b n row :
    json_body req = inr payload ->
    parse updateThesisSchema payload = inr b ->
    BigInt (Params.id params) = inr n ->
    theses w !! n = Some row ->
    ParsedBody.author_name b = None ->
    PUT_path req params w
      (caught (TypeError "Cannot read properties of undefined (reading 'username')"))
      (updated n b None row w)
| path_date_invalid payload b n row name a :
    json_body req = inr payload ->
    parse updateThesisSchema payload = inr b ->
    BigInt (Params.id params) = inr n ->
    theses w !! n = Some row ->
    ParsedBody.author_name b = Some name ->
    prisma.user_by_username (users w) name = Some a ->
    ~ (valid_time (ThesisRow.created_at row) /\ valid_time (now w)) ->
    PUT_path req params w (caught (RangeError "Invalid time value"))
      (updated n b (Some a) row w)
| path_no_session payload b n row name a :
    json_body req = inr payload ->
    parse updateThesisSchema payload = inr b ->
    BigInt (Params.id params) = inr n ->
    theses w !! n = Some row ->
    ParsedBody.author_name b = Some name ->
    prisma.user_by_username (users w) name = Some a ->
    valid_time (ThesisRow.created_at row) ->
    valid_time (now w) ->
    session_user req = None ->
    PUT_path req params w
      (caught (TypeError "Cannot read properties of null (reading 'id')"))
      (updated n b (Some a) row w)
| path_success payload b n row name a created_at updated_at currentUser :
    json_body req = inr payload ->
    parse updateThesisSchema payload = inr b ->
    BigInt (Params.id params) = inr n ->
    theses w !! n = Some row ->
    ParsedBody.author_name b = Some name ->
    prisma.user_by_username (users w) name = Some a ->
    toISOString (ThesisRow.created_at row) = inr created_at ->
    toISOString (now w) = inr updated_at ->
    session_user req = Some currentUser ->
    PUT_path req params w
      (NextResponse.json
         (JObj [message "Thesis updated successfully";
                ("thesis",
                 thesisResponse n (prisma.thesis.apply (update_data b (Some a) row) row (now w))
                   (User.username a) created_at updated_at)])
         None)
      (audited
         (audit (ThesisRow.title (prisma.thesis.apply (update_data b (Some a) row) row (now w)))
            currentUser)
         (updated n b (Some a) row w)).

(** The conditions of the path to 200, on the request, the parameters
    and the world. *)
Definition accepted (req : Request) (params : Params.t) (w : World) : Prop :=
  exists b n row name a currentUser,
    passes_validation req b
    /\ supplies_author_name req name
    /\ prisma.user_by_username (users w) name = Some a
    /\ path_id params n
    /\ theses w !! n = Some row
    /\ valid_time (ThesisRow.created_at row)
    /\ valid_time (now w)
    /\ session_user req = Some currentUser.

(** The conditions under which the handler reaches the update. *)
Definition reaches_update (req : Request) (params : Params.t) (w : World) : Prop :=
  exists b n row author,
    passes_validation req b
    /\ path_id params n
    /\ theses w !! n = Some row
    /\ resolved (users w) b author.

(** ** Bodies *)

(** The keys of the shape of [updateThesisSchema]. *)
Definition shape_keys : list string :=
  ["title"; "author_name"; "category"; "keywords"; "abstract"; "status"].

(** The property [k] of an object literal, present when there is a value. *)
Definition property_of {A : Type} (k : string) (encode : A -> json) (o : option A)
    : list (string * json) :=
  match o with
  | Some v => [(k, encode v)]
  | None => []
  end.

(** The JSON object that carries exactly the fields of [b]. *)
Definition encode (b : ParsedBody.t) : list (string * json) :=
  property_of "title" JStr (ParsedBody.title b)
  ++ property_of "author_name" JStr (ParsedBody.author_name b)
  ++ property_of "category" JStr (ParsedBody.category b)
  ++ property_of "keywords" (fun l => JArr (JStr <$> l)) (ParsedBody.keywords b)
  ++ property_of "abstract" JStr (ParsedBody.abstract b)
  ++ property_of "status" JStr (ParsedBody.status b).

(** What the schema lets through: a title and an author name are not
    empty, a status is one of the enumeration. *)
Definition well_formed (b : ParsedBody.t) : Prop :=
  ParsedBody.title b <> Some ""
  /\ ParsedBody.author_name b <> Some ""
  /\ (forall s, ParsedBody.status b = Some s -> In s statuses).

(** ** Invariants of the thesis table *)

(** The row has a title and a status of the enumeration. *)
Definition row_well_formed (r : ThesisRow.t) : Prop :=
  ThesisRow.title r <> "" /\ In (ThesisRow.status r) statuses.

(** The author of the row is one of the users. *)
Definition author_exists (us : list User.t) (r : ThesisRow.t) : Prop :=
  exists u, In u us /\ User.id u = ThesisRow.author_id r.

(** Every stored row satisfies [P]. *)
Definition every_row (P : ThesisRow.t -> Prop) (w : World) : Prop :=
  forall m r, theses w !! m = Some r -> P r.

(** * Properties of the handler *)

(** ** The schema *)

Lemma ap_inr {A B : Type} (f : Zod.Result (A -> B)) (x : Zod.Result A) (y : B) :
  Zod.ap f x = inr y -> exists f' x', f = inr f' /\ x = inr x' /\ y = f' x'.
Proof.
  destruct f as [i|f'], x as [j|x']; simpl; intros H; try discriminate.
  injection H as <-. eauto.
Qed.

Lemma schema_inr (p : list Zod.PathSeg) (input : option json) (b : ParsedBody.t) :
  updateThesisSchema p input = inr b ->
  exists props, input = Some (JObj props) /\
    Zod.field "title" (Zod.optional (Zod.string_min 1)) p props = inr (ParsedBody.title b) /\
    Zod.field "author_name" (Zod.optional (Zod.string_min 1)) p props = inr (ParsedBody.author_name b) /\
    Zod.field "category" (Zod.optional Zod.string) p props = inr (ParsedBody.category b) /\
    Zod.field "keywords" (Zod.optional (Zod.array Zod.string)) p props = inr (ParsedBody.keywords b) /\
    Zod.field "abstract" (Zod.optional Zod.string) p props = inr (ParsedBody.abstract b) /\
    Zod.field "status" (Zod.optional (Zod.enum ["Pending"; "Approved"; "Rejected"])) p props
      = inr (ParsedBody.status b).
Proof.
  unfold updateThesisSchema.
  destruct input as [[| | | | |props]|]; try discriminate.
  intros H. exists props. split; [reflexivity|].
  repeat (apply ap_inr in H as (? & ? & H & -> & ->)).
  injection H as <-. simpl. repeat split; reflexivity.
Qed.

Lemma optional_string_min_inr p input o :
  Zod.optional (Zod.string_min 1) p input = inr o ->
  match o with
  | None => input = None
  | Some s => input = Some (JStr s) /\ s <> ""
  end.
Proof.
  unfold Zod.optional, Zod.string_min, Zod.string.
  destruct input as [[| | |s| |]|]; simpl; try discriminate.
  - destruct (Z.ltb_spec (Z.of_nat (String.length s)) 1) as [Hlt|Hge]; simpl; [discriminate|].
    intros H. injection H as <-. split; [reflexivity|].
    intros ->. simpl in Hge. lia.
  - intros H. injection H as <-. reflexivity.
Qed.

Lemma optional_string_inr p input o :
  Zod.optional Zod.string p input = inr o ->
  match o with
  | None => input = None
  | Some s => input = Some (JStr s)
  end.
Proof.
  unfold Zod.optional, Zod.string.
  destruct input as [[| | |s| |]|]; simpl; try discriminate; intros H; injection H as <-; reflexivity.
Qed.

Arguments updateThesisSchema : simpl never.
Arguments BigInt : simpl never.
Arguments toISOString : simpl never.
Arguments BigInt_toString : simpl never.
Arguments parse : simpl never.

Lemma parse_inr {A : Type} (schema : Zod.Schema A) (data : json) (a : A) :
  parse schema data = inr a <-> schema [] (Some data) = inr a.
Proof.
  unfold parse. destruct (schema [] (Some data)); split; intros H; try discriminate;
    injection H as <-; reflexivity.
Qed.

Lemma parse_inl {A : Type} (schema : Zod.Schema A) (data : json) (e : Exn) :
  parse schema data = inl e <->
  exists issues, schema [] (Some data) = inl issues /\ e = ZodError issues.
Proof.
  unfold parse. destruct (schema [] (Some data)) as [issues|a]; split.
  - intros H. injection H as <-. eauto.
  - intros (issues' & H & ->). injection H as <-. reflexivity.
  - discriminate.
  - intros (issues' & H & _). discriminate.
Qed.

(** A body that passes validation is an object, hence truthy. *)
Lemma parse_object (body : json) (b : ParsedBody.t) :
  parse updateThesisSchema body = inr b -> exists props, body = JObj props.
Proof.
  intros H. apply parse_inr, schema_inr in H as (props & H & _).
  injection H as ->. eauto.
Qed.

Lemma parse_truthy (body : json) (b : ParsedBody.t) :
  parse updateThesisSchema body = inr b -> truthy body = true.
Proof. intros H. apply parse_object in H as (props & ->). reflexivity. Qed.

(** A validated [author_name] is a non-empty string of the body. *)
Lemma parsed_author_name (props : list (string * json)) (b : ParsedBody.t) :
  parse updateThesisSchema (JObj props) = inr b ->
  match ParsedBody.author_name b with
  | None => obj_get "author_name" props = None
  | Some name => obj_get "author_name" props = Some (JStr name) /\ truthy (JStr name) = true
  end.
Proof.
  intros H. apply parse_inr, schema_inr in H as (props' & Hp & _ & H & _).
  injection Hp as <-. apply optional_string_min_inr in H.
  destruct (ParsedBody.author_name b) as [name|]; [|exact H].
  destruct H as [H Hne]. split; [exact H|].
  simpl. destruct name; [congruence|reflexivity].
Qed.

(** ** The paths through the handler *)

Lemma PUT_catch_caught (e : Exn) (w : World) : PUT_catch e w = (Return (caught e), w).
Proof. destruct e; reflexivity. Qed.

Lemma user_by_username_Some (us : list User.t) (name : string) (u : User.t) :
  prisma.user_by_username us name = Some u -> In u us /\ User.username u = name.
Proof.
  unfold prisma.user_by_username. intros H. apply find_some in H as [Hin H].
  split; [exact Hin|]. apply String.eqb_eq, H.
Qed.

Ltac run :=
  repeat (progress (
    unfold PUT, try_catch, PUT_try, PUT_catch, req_json, getUserFromSession,
      prisma.thesis.findUnique, prisma.thesis.update, prisma.user.findUnique,
      prisma.history.create, record_call, get, modify, js_return, throw, lift,
      property, settle, mbind, M_bind, mret, M_ret;
    cbn)).

Ltac finish :=
  unfold updated, logged, audited, update_data, caught; cbn;
  rewrite <- ?app_assoc; reflexivity.

Section Paths.

Context (req : Request) (params : Params.t) (w : World).

(** [req.json()] rejects: the [catch] block answers. *)
Lemma PUT_json_rejects (e : Exn) :
  json_body req = inl e ->
  PUT req params w =
    (inr (caught e), w).
Proof. intros H. run. rewrite H. run. destruct e; reflexivity. Qed.

(** A falsy body stops at the guard of line 23. *)
Lemma PUT_falsy_body (body : json) :
  json_body req = inr body ->
  truthy body = false ->
  PUT req params w =
    (inr (NextResponse.json (JObj [message "Request body is empty or malformed"])
            (Some 400)), w).
Proof. intros H Hf. run. rewrite H. run. rewrite Hf. reflexivity. Qed.

(** A truthy body that fails the schema: the [ZodError] branch. *)
Lemma PUT_invalid_body (body : json) (issues : list Zod.ZodIssue) :
  json_body req = inr body ->
  truthy body = true ->
  updateThesisSchema [] (Some body) = inl issues ->
  PUT req params w =
    (inr (caught (ZodError issues)), w).
Proof.
  intros H Ht Hs. run. rewrite H. run. rewrite Ht. run.
  unfold parse. rewrite Hs. reflexivity.
Qed.

Context (body : json) (b : ParsedBody.t).
Hypothesis Hjson : json_body req = inr body.
Hypothesis Hparse : parse updateThesisSchema body = inr b.

(** [BigInt(id)] throws. *)
Lemma PUT_bad_id (e : Exn) :
  BigInt (Params.id params) = inl e ->
  PUT req params w =
    (inr (caught e), w).
Proof.
  intros Hn. run. rewrite Hjson. run. rewrite (parse_truthy _ _ Hparse). run.
  rewrite Hparse. run. rewrite Hn. run. destruct e; reflexivity.
Qed.

Context (n : Z).
Hypothesis Hid : BigInt (Params.id params) = inr n.

Lemma PUT_thesis_not_found :
  theses w !! n = None ->
  PUT req params w =
    (inr (NextResponse.json (JObj [message "Thesis not found"]) (Some 404)),
     logged [thesis_findUnique n] w).
Proof.
  intros Hn. run. rewrite Hjson. run. rewrite (parse_truthy _ _ Hparse). run.
  rewrite Hparse. run. rewrite Hid. run. rewrite Hn. reflexivity.
Qed.

Context (row : ThesisRow.t).
Hypothesis Hrow : theses w !! n = Some row.

Lemma PUT_author_not_found (name : string) :
  ParsedBody.author_name b = Some name ->
  prisma.user_by_username (users w) name = None ->
  PUT req params w =
    (inr (NextResponse.json (JObj [message "Author not found"]) (Some 404)),
     logged [thesis_findUnique n; user_findUnique name] w).
Proof.
  intros Ha Hu. 
  destruct (parse_object _ _ Hparse) as [props ->].
  pose proof (parsed_author_name _ _ Hparse) as Hname. rewrite Ha in Hname.
  destruct Hname as [_ Hname]. simpl in Hname.
  run. rewrite Hjson. run.
  rewrite Hparse. run. rewrite Hid. run. rewrite Hrow. run. rewrite Ha.
  rewrite Hname. run. unfold prisma.user_by_username in Hu. rewrite Hu.
  unfold logged. rewrite <- app_assoc. reflexivity.
Qed.

(** From here on the row is updated before anything else can fail. *)

(** No [author_name] in the body: line 68 reads [thesis.author.username]
    on an object fetched without its [author]. *)
Lemma PUT_author_omitted :
  ParsedBody.author_name b = None ->
  PUT req params w =
    (inr (caught (TypeError "Cannot read properties of undefined (reading 'username')")),
     updated n b None row w).
Proof.
  intros Ha. run. rewrite Hjson. run. rewrite (parse_truthy _ _ Hparse). run.
  rewrite Hparse. run. rewrite Hid. run. rewrite Hrow. run. rewrite Ha. run.
  rewrite ?Hid. run. rewrite ?Hrow. run. finish.
Qed.

Context (name : string) (a : User.t).
Hypothesis Hname : ParsedBody.author_name b = Some name.
Hypothesis Hauthor : prisma.user_by_username (users w) name = Some a.

Ltac to_update :=
  let Hn := fresh in
  pose proof (parsed_author_name _ _ Hparse) as Hn; rewrite Hname in Hn;
  destruct Hn as [_ Hn]; simpl in Hn;
  pose proof (user_by_username_Some _ _ _ Hauthor) as [_ <-];
  run; rewrite Hjson; run; rewrite Hparse; run; rewrite Hid; run; rewrite Hrow; run;
  rewrite Hname, Hn; run;
  unfold prisma.user_by_username in Hauthor; rewrite Hauthor; run;
  rewrite ?Hid; run; rewrite ?Hrow; run.

Lemma PUT_created_at_invalid (e : Exn) :
  toISOString (ThesisRow.created_at row) = inl e ->
  PUT req params w = (inr (caught e), updated n b (Some a) row w).
Proof.
  intros Hc. destruct (parse_object _ _ Hparse) as [props ->]. to_update.
  rewrite Hc. run. destruct e; finish.
Qed.

Context (created_at : string).
Hypothesis Hcreated : toISOString (ThesisRow.created_at row) = inr created_at.

(** The row was stamped with the clock of the store. *)
Lemma PUT_updated_at_invalid (e : Exn) :
  toISOString (now w) = inl e ->
  PUT req params w = (inr (caught e), updated n b (Some a) row w).
Proof.
  intros Hu. destruct (parse_object _ _ Hparse) as [props ->]. to_update.
  rewrite Hcreated. run. rewrite Hu. run. destruct e; finish.
Qed.

Context (updated_at : string).
Hypothesis Hupdated : toISOString (now w) = inr updated_at.

(** No user in the session: [currentUser.id] throws. *)
Lemma PUT_no_session :
  session_user req = None ->
  PUT req params w =
    (inr (caught (TypeError "Cannot read properties of null (reading 'id')")),
     updated n b (Some a) row w).
Proof.
  intros Hs. destruct (parse_object _ _ Hparse) as [props ->]. to_update.
  rewrite Hcreated. run. rewrite Hupdated. run. rewrite Hs. run. finish.
Qed.

(** The only path to [200]. *)
Lemma PUT_success (currentUser : User.t) :
  session_user req = Some currentUser ->
  let r := prisma.thesis.apply (update_data b (Some a) row) row (now w) in
  PUT req params w =
    (inr (NextResponse.json
            (JObj [message "Thesis updated successfully";
                   ("thesis", thesisResponse n r (User.username a) created_at updated_at)])
            None),
     audited (audit (ThesisRow.title r) currentUser) (updated n b (Some a) row w)).
Proof.
  intros Hs. destruct (parse_object _ _ Hparse) as [props ->]. to_update.
  rewrite Hcreated. run. rewrite Hupdated. run. rewrite Hs. run. finish.
Qed.

End Paths.

(** ** C1 and C2: a body without [author_name] *)

(** C1, on the code: the scenario of the claim, [{"category":"AI"}] put on
    thesis "X" of alice, is answered 500 by the [catch] block (the
    [TypeError] of line 68), not 200 with [author_name] "alice"; the
    category of the stored row is "AI" all the same, and no history row is
    written. *)
Theorem category_only_scenario_answers_500 :
  let '(r, w') := PUT (Scenario.put [("category", JStr "AI")]) Scenario.params Scenario.world in
  r = inr (NextResponse.json
             (JObj [message "Internal Server Error";
                    ("error", JStr "Cannot read properties of undefined (reading 'username')")])
             (Some 500))
  /\ ThesisRow.category <$> theses w' !! 7 = Some "AI"
  /\ ThesisRow.title <$> theses w' !! 7 = Some "X"
  /\ history w' = [].
Proof. vm_compute. repeat split; reflexivity. Qed.

(** C2: when the body passes validation and has no [author_name], and the
    id is the key of a stored thesis, the handler looks the thesis up,
    stores the merged row, and then fails on [thesis.author.username]: the
    answer is 500, the row is the merged one, the history table is as it
    was, and the only client calls are the lookup and the update. *)
Theorem update_persists_then_response_fails
    (req : Request) (params : Params.t) (w : World)
    (props : list (string * json)) (b : ParsedBody.t) (n : Z) (row : ThesisRow.t) :
  json_body req = inr (JObj props) ->
  parse updateThesisSchema (JObj props) = inr b ->
  obj_get "author_name" props = None ->
  BigInt (Params.id params) = inr n ->
  theses w !! n = Some row ->
  exists (r : Response) (w' : World),
    PUT req params w = (inr r, w')
    /\ status r = 500
    /\ body r = JObj [message "Internal Server Error";
                      ("error", JStr "Cannot read properties of undefined (reading 'username')")]
    /\ theses w' = <[n := prisma.thesis.apply (update_data b None row) row (now w)]> (theses w)
    /\ history w' = history w
    /\ users w' = users w
    /\ calls w' = calls w ++ [thesis_findUnique n; thesis_update n (update_data b None row)].
Proof.
  intros Hjson Hparse Hnone Hid Hrow.
  assert (ParsedBody.author_name b = None) as Ha.
  { pose proof (parsed_author_name _ _ Hparse) as H.
    destruct (ParsedBody.author_name b); [|reflexivity].
    destruct H as [H _]. congruence. }
  eexists _, _. split.
  - eapply PUT_author_omitted; eassumption.
  - repeat split; reflexivity.
Qed.

Lemma update_persists_then_response_fails_witness :
  exists (r : Response) (w' : World),
    PUT (Scenario.put [("category", JStr "AI")]) Scenario.params Scenario.world = (inr r, w')
    /\ status r = 500
    /\ body r = JObj [message "Internal Server Error";
                      ("error", JStr "Cannot read properties of undefined (reading 'username')")]
    /\ theses w' = <[7 := ThesisRow.mk "X" "AI" ["learning"; "vision"] "An abstract."
                           "Pending" 1 1700000000000 1700000100000]> {[ 7 := Scenario.thesis_X ]}
    /\ history w' = []
    /\ users w' = [Scenario.alice; Scenario.admin]
    /\ calls w' = [thesis_findUnique 7;
                   thesis_update 7 (ThesisUpdateInput.mk "X" "AI" ["learning"; "vision"]
                                      "An abstract." "Pending" 1)].
Proof.
  apply (update_persists_then_response_fails
           (Scenario.put [("category", JStr "AI")]) Scenario.params Scenario.world
           [("category", JStr "AI")]
           (ParsedBody.mk None None (Some "AI") None None None) 7 Scenario.thesis_X);
    reflexivity.
Defined.

(** ** C3: a body that is empty or is not JSON *)

(** C3, on the code: when [req.json()] rejects with a [SyntaxError], as it
    does on an empty body and on text that is not JSON, control goes
    to the [catch] block, which answers 500 "Internal Server Error"; the
    guard of line 23 is never reached. *)
Theorem unparseable_body_answers_500
    (text : string) (session : option User.t) (params : Params.t) (w : World) :
  PUT (mkRequest (inl (SyntaxError text)) session) params w =
    (inr (NextResponse.json
            (JObj [message "Internal Server Error"; ("error", error_message (SyntaxError text))])
            (Some 500)), w).
Proof.
  exact (PUT_json_rejects (mkRequest (inl (SyntaxError text)) session) params w
           (SyntaxError text) eq_refl).
Qed.

(** ** C4 and C5: the two not-found answers *)

Lemma caught_status (e : Exn) : status (caught e) = 400 \/ status (caught e) = 500.
Proof. destruct e; simpl; auto. Qed.

Lemma BigInt_throws (value : string) (e : Exn) :
  BigInt value = inl e -> exists text, e = SyntaxError text.
Proof.
  unfold BigInt. destruct (StringToBigInt value); [discriminate|].
  intros H. injection H as <-. eauto.
Qed.

(** [BigInt] drops the white space of ECMAScript, not only that of
    ASCII: a no-break space (U+00A0) in front of the digits, a line
    separator (U+2028) and a byte order mark (U+FEFF) behind them; white
    space between the digits is no literal. *)
Lemma BigInt_drops_white_space :
  let nbsp := String (ascii_of_nat 194) (String (ascii_of_nat 160) "") in
  let ls := String (ascii_of_nat 226) (String (ascii_of_nat 128) (String (ascii_of_nat 168) "")) in
  let bom := String (ascii_of_nat 239) (String (ascii_of_nat 187) (String (ascii_of_nat 191) "")) in
  BigInt (nbsp +:+ "7") = inr 7
  /\ BigInt (nbsp +:+ " -42 " +:+ ls +:+ bom) = inr (-42)
  /\ BigInt (bom +:+ nbsp) = inr 0
  /\ BigInt ("7" +:+ nbsp +:+ "8") = inl (SyntaxError ("Cannot convert " +:+ "7" +:+ nbsp +:+ "8" +:+ " to a BigInt")).
Proof. repeat split; vm_compute; reflexivity. Qed.

(** A path id with a no-break space in front of the digits is the key the
    digits spell: the thesis 7 is found and updated. *)
Lemma PUT_id_with_no_break_space :
  exists r w',
    answers (Scenario.put [("author_name", JStr "alice"); ("category", JStr "AI")])
      (Params.mk (String (ascii_of_nat 194) (String (ascii_of_nat 160) "7")))
      Scenario.world r w'
    /\ status r = 200.
Proof. eexists _, _. split; [unfold answers; vm_compute; reflexivity|reflexivity]. Qed.

(** C4 fails as stated: a body that names the unknown author "ghost" and
    carries a [status] outside the enumeration is answered 400, and a
    valid body that names "ghost" under a path id that is no integer is
    answered 500. *)
Lemma unknown_author_as_stated_fails :
  ~ unknown_author_as_stated
      (Scenario.put [("author_name", JStr "ghost"); ("status", JStr "Archived")])
      Scenario.params Scenario.world
  /\ ~ unknown_author_as_stated
         (Scenario.put [("author_name", JStr "ghost")]) (Params.mk "seven") Scenario.world.
Proof.
  split; intros H.
  - destruct (H "ghost") as (r & w' & Hr & Hs & _).
    + eexists. split; reflexivity.
    + reflexivity.
    + unfold answers in Hr. vm_compute in Hr. injection Hr as <- <-. discriminate.
  - destruct (H "ghost") as (r & w' & Hr & Hs & _).
    + eexists. split; reflexivity.
    + reflexivity.
    + unfold answers in Hr. vm_compute in Hr. injection Hr as <- <-. discriminate.
Qed.

(** C4, amended: a request that names an author no user has never writes
    a table; it is answered 404 whenever its body passes validation and
    its path id is an integer, 400 when its body violates the schema, and
    500 when its body passes validation and [BigInt] throws on the path
    id. *)
Theorem unknown_author_writes_nothing
    (req : Request) (params : Params.t) (w : World) (name : string) :
  supplies_author_name req name ->
  prisma.user_by_username (users w) name = None ->
  exists r w',
    answers req params w r w'
    /\ unchanged w w'
    /\ (forall b n, passes_validation req b -> path_id params n -> status r = 404)
    /\ (violates_schema req -> status r = 400)
    /\ (forall b, passes_validation req b -> path_id_throws params -> status r = 500).
Proof.
  intros (props & Hjson & Hname) Huser.
  unfold answers, passes_validation, path_id, violates_schema, path_id_throws.
  destruct (updateThesisSchema [] (Some (JObj props))) as [issues|b] eqn:Hschema.
  { eexists _, _. split; [eapply PUT_invalid_body; eauto|].
    split; [repeat split|]. split; [|split; [reflexivity|]].
    - intros b n (body & Hb & Hp) _. rewrite Hjson in Hb. injection Hb as <-.
      apply parse_inr in Hp. congruence.
    - intros b (body & Hb & Hp) _. rewrite Hjson in Hb. injection Hb as <-.
      apply parse_inr in Hp. congruence. }
  assert (forall payload issues,
            json_body req = inr payload -> updateThesisSchema [] (Some payload) <> inl issues)
    as Hvalid.
  { intros payload issues Hb Hp. rewrite Hjson in Hb. injection Hb as <-. congruence. }
  apply parse_inr in Hschema.
  destruct (BigInt (Params.id params)) as [e|n] eqn:Hid.
  { eexists _, _. split; [eapply PUT_bad_id; eauto|].
    split; [repeat split|]. split; [|split].
    - intros _ n _ Hn. discriminate.
    - intros (payload & issues & Hb & Hp). contradiction (Hvalid _ _ Hb Hp).
    - intros _ _ _. destruct (BigInt_throws _ _ Hid) as [text ->]. reflexivity. }
  assert (forall r : Response, status r = 404 ->
            (forall b n', (exists body, json_body req = inr body
                                        /\ parse updateThesisSchema body = inr b) ->
                          @inr Exn Z n = inr n' -> status r = 404)
            /\ ((exists payload issues,
                    json_body req = inr payload
                    /\ updateThesisSchema [] (Some payload) = inl issues) -> status r = 400)
            /\ (forall b, (exists body, json_body req = inr body
                                        /\ parse updateThesisSchema body = inr b) ->
                          (exists e, @inr Exn Z n = inl e) -> status r = 500)) as Hrest.
  { intros r Hr. split; [auto|]. split.
    - intros (payload & issues & Hb & Hp). contradiction (Hvalid _ _ Hb Hp).
    - intros _ _ [e He]. discriminate. }
  destruct (theses w !! n) as [row|] eqn:Hrow.
  - assert (ParsedBody.author_name b = Some name) as Ha.
    { pose proof (parsed_author_name _ _ Hschema) as H.
      destruct (ParsedBody.author_name b) as [name'|]; [destruct H|]; congruence. }
    eexists _, _. split; [eapply PUT_author_not_found; eauto|].
    split; [repeat split|]. apply Hrest. reflexivity.
  - eexists _, _. split; [eapply PUT_thesis_not_found; eauto|].
    split; [repeat split|]. apply Hrest. reflexivity.
Qed.

Lemma unknown_author_writes_nothing_witness :
  exists r w',
    answers (Scenario.put [("author_name", JStr "ghost")]) Scenario.params Scenario.world r w'
    /\ unchanged Scenario.world w'
    /\ status r = 404.
Proof.
  destruct (unknown_author_writes_nothing
              (Scenario.put [("author_name", JStr "ghost")]) Scenario.params Scenario.world
              "ghost")
    as (r & w' & Hr & Hu & Hs & _).
  - exists [("author_name", JStr "ghost")]. split; reflexivity.
  - reflexivity.
  - exists r, w'. split; [exact Hr|]. split; [exact Hu|].
    apply (Hs (ParsedBody.mk None (Some "ghost") None None None None) 7).
    + exists (JObj [("author_name", JStr "ghost")]). split; reflexivity.
    + reflexivity.
Defined.




(** ** C6: bodies that violate the schema *)

Lemma issues_of_ap {A B : Type} (f : Zod.Result (A -> B)) (x : Zod.Result A) :
  issues_of (Zod.ap f x) = issues_of f ++ issues_of x.
Proof. destruct f, x; simpl; rewrite ?app_nil_r; reflexivity. Qed.

Lemma reports_ap {A B : Type} (f : Zod.Result (A -> B)) (x : Zod.Result A) :
  reports f -> reports x -> reports (Zod.ap f x).
Proof.
  destruct f as [[|i f]|f], x as [[|j x]|x]; simpl; auto; intros; discriminate.
Qed.

Lemma below_ap {A B : Type} p (f : Zod.Result (A -> B)) (x : Zod.Result A) :
  below p f -> below p x -> below p (Zod.ap f x).
Proof. unfold below. rewrite issues_of_ap. apply Forall_app_2. Qed.

Lemma below_weaken {A : Type} p q (r : Zod.Result A) : below (p ++ q) r -> below p r.
Proof.
  unfold below. intros H. eapply Forall_impl; [exact H|].
  intros i (rest & ->). exists (q ++ rest). symmetry. apply app_assoc.
Qed.

Lemma below_one {A : Type} p (c : Zod.IssueCode) : below (A := A) p (inl [Zod.issue c p]).
Proof. constructor; [|constructor]. exists []. simpl. symmetry. apply app_nil_r. Qed.

Lemma sound_string : sound Zod.string.
Proof.
  intros p input. unfold Zod.string.
  destruct input as [[| | |s| |]|]; simpl; split;
    try discriminate; try exact I; try apply below_one; constructor.
Qed.

Lemma sound_string_min (n : Z) : sound (Zod.string_min n).
Proof.
  intros p input. unfold Zod.string_min.
  destruct (sound_string p input) as [Hr Hb].
  destruct (Zod.string p input) as [i|s]; [split; assumption|].
  destruct (Z.of_nat (String.length s) <? n); simpl; split;
    try discriminate; try exact I; try apply below_one; constructor.
Qed.

Lemma sound_enum (values : list string) : sound (Zod.enum values).
Proof.
  intros p input. unfold Zod.enum.
  destruct input as [[| | |s| |]|]; simpl; try (split; [discriminate|apply below_one]).
  destruct (existsb (String.eqb s) values); split;
    try discriminate; try exact I; try apply below_one; constructor.
Qed.

Lemma sound_array_items {A : Type} (el : Zod.Schema A) (p : list Zod.PathSeg) :
  sound el ->
  forall items i, reports (Zod.array_items el p i items) /\ below p (Zod.array_items el p i items).
Proof.
  intros Hel items. induction items as [|v rest IH]; intros i; cbn [Zod.array_items].
  - split; [exact I|constructor].
  - destruct (Hel (p ++ [Zod.Index i]) (Some v)) as [Hr Hb].
    destruct (IH (S i)) as [Hr' Hb']. split.
    + apply reports_ap; [apply reports_ap; [exact I|exact Hr]|exact Hr'].
    + apply below_ap; [apply below_ap; [constructor|]|exact Hb'].
      eapply below_weaken, Hb.
Qed.

Lemma sound_array {A : Type} (el : Zod.Schema A) : sound el -> sound (Zod.array el).
Proof.
  intros Hel p input. unfold Zod.array.
  destruct input as [[| | | |items|]|]; simpl; try (split; [discriminate|apply below_one]).
  apply sound_array_items, Hel.
Qed.

Lemma sound_optional {A : Type} (s : Zod.Schema A) : sound s -> sound (Zod.optional s).
Proof.
  intros Hs p input. unfold Zod.optional. destruct input as [v|].
  - destruct (Hs p (Some v)) as [Hr Hb]. split.
    + apply reports_ap; [exact I|exact Hr].
    + apply below_ap; [constructor|exact Hb].
  - split; [exact I|constructor].
Qed.

Lemma schema_object_issues (props : list (string * json)) :
  issues_of (updateThesisSchema [] (Some (JObj props))) = concat (snd <$> shape_issues props).
Proof.
  unfold updateThesisSchema, shape_issues. rewrite !issues_of_ap. cbn [issues_of fmap list_fmap snd concat].
  rewrite app_nil_r, <- !app_assoc. reflexivity.
Qed.

Lemma schema_reports (p : list Zod.PathSeg) (input : option json) :
  reports (updateThesisSchema p input).
Proof.
  unfold updateThesisSchema.
  destruct input as [[| | | | |props]|]; try discriminate.
  repeat apply reports_ap; try exact I; unfold Zod.field;
    apply sound_optional;
    auto using sound_string, sound_string_min, sound_enum, sound_array.
Qed.

Lemma field_below {A : Type} (k : string) (s : Zod.Schema A) (props : list (string * json)) :
  sound s ->
  Forall (fun i => exists rest, Zod.path i = Zod.Key k :: rest) (issues_of (Zod.field k s [] props)).
Proof. intros Hs. apply (Hs [Zod.Key k]). Qed.

(** Each issue of a key lies under that key. *)
Lemma shape_issues_below (props : list (string * json)) (k : string) (issues : list Zod.ZodIssue) :
  In (k, issues) (shape_issues props) ->
  Forall (fun i => exists rest, Zod.path i = Zod.Key k :: rest) issues.
Proof.
  unfold shape_issues. simpl.
  intros [H|[H|[H|[H|[H|[H|[]]]]]]]; injection H as <- <-; apply field_below, sound_optional;
    auto using sound_string, sound_string_min, sound_enum, sound_array.
Qed.

(** An issue as serialised carries its path and a message. *)
Lemma issue_json_path_message (i : Zod.ZodIssue) :
  exists fields text,
    ZodJson.issue i = JObj fields
    /\ obj_get "path" fields = Some (JArr (ZodJson.segment <$> Zod.path i))
    /\ obj_get "message" fields = Some (JStr text).
Proof.
  unfold ZodJson.issue. destruct (Zod.code i); eexists _, _; split; try reflexivity; split; reflexivity.
Qed.

Lemma in_shape_issues (props : list (string * json)) (k : string)
    (key_issues : list Zod.ZodIssue) (i : Zod.ZodIssue) :
  In (k, key_issues) (shape_issues props) -> In i key_issues ->
  In i (concat (snd <$> shape_issues props)).
Proof.
  intros Hk Hi. apply in_concat. exists key_issues. split; [|exact Hi].
  change key_issues with (snd (k, key_issues)). apply in_map, Hk.
Qed.

Lemma array_items_reports (p : list Zod.PathSeg) (items : list json) :
  forall (k i : nat) (v : json),
    items !! i = Some v ->
    Zod.getParsedType (Some v) <> Zod.t_string ->
    In (Zod.issue (Zod.invalid_type "string" (Zod.getParsedType (Some v)))
          (p ++ [Zod.Index (k + i)]))
       (issues_of (Zod.array_items Zod.string p k items)).
Proof.
  induction items as [|x items IH]; intros k i v Hi Hty; [discriminate|].
  cbn [Zod.array_items]. rewrite !issues_of_ap. cbn [issues_of app].
  apply in_or_app. destruct i as [|i].
  - left. injection Hi as ->. rewrite Nat.add_0_r.
    destruct v; try (left; reflexivity). contradiction Hty. reflexivity.
  - right. replace (k + S i)%nat with (S k + i)%nat by lia. apply IH; assumption.
Qed.

Lemma shape_lists_violations (props : list (string * json)) :
  lists_violations_per_field props (concat (snd <$> shape_issues props)).
Proof.
  split; [reflexivity|]. split; [apply shape_issues_below|].
  split; [|split; [|split; [|split; [|split]]]].
  - intros s Hs Hout.
    eapply in_shape_issues; [unfold shape_issues; do 5 right; left; reflexivity|].
    unfold Zod.field, Zod.optional, Zod.enum. rewrite Hs.
    destruct (existsb (String.eqb s) ["Pending"; "Approved"; "Rejected"]) eqn:Hex.
    + apply existsb_exists in Hex as (v & Hin & Heq). apply String.eqb_eq in Heq as ->.
      contradiction.
    + left. reflexivity.
  - intros Ht.
    eapply in_shape_issues; [unfold shape_issues; left; reflexivity|].
    unfold Zod.field, Zod.optional, Zod.string_min, Zod.string. rewrite Ht.
    left. reflexivity.
  - intros k v Hk Hv Hty.
    assert (forall p, issues_of (Zod.optional Zod.string p (Some v))
                      = [Zod.issue (Zod.invalid_type "string" (Zod.getParsedType (Some v))) p]) as Hs.
    { intros p. destruct v; try reflexivity. contradiction Hty. reflexivity. }
    assert (forall p, issues_of (Zod.optional (Zod.string_min 1) p (Some v))
                      = [Zod.issue (Zod.invalid_type "string" (Zod.getParsedType (Some v))) p]) as Hm.
    { intros p. destruct v; try reflexivity. contradiction Hty. reflexivity. }
    simpl in Hk. destruct Hk as [<-|[<-|[<-|[<-|[]]]]].
    + eapply in_shape_issues; [unfold shape_issues; left; reflexivity|].
      unfold Zod.field. rewrite Hv, Hm. left. reflexivity.
    + eapply in_shape_issues; [unfold shape_issues; do 1 right; left; reflexivity|].
      unfold Zod.field. rewrite Hv, Hm. left. reflexivity.
    + eapply in_shape_issues; [unfold shape_issues; do 2 right; left; reflexivity|].
      unfold Zod.field. rewrite Hv, Hs. left. reflexivity.
    + eapply in_shape_issues; [unfold shape_issues; do 4 right; left; reflexivity|].
      unfold Zod.field. rewrite Hv, Hs. left. reflexivity.
  - intros v Hv Hty.
    eapply in_shape_issues; [unfold shape_issues; do 3 right; left; reflexivity|].
    unfold Zod.field. rewrite Hv.
    destruct v; try (left; reflexivity). contradiction Hty. reflexivity.
  - intros items i v Hv Hi Hty.
    eapply in_shape_issues; [unfold shape_issues; do 3 right; left; reflexivity|].
    unfold Zod.field, Zod.optional, Zod.array. rewrite Hv, issues_of_ap.
    apply (array_items_reports ([] ++ [Zod.Key "keywords"]) items 0 i v Hi Hty).
  - intros v Hv Hty.
    eapply in_shape_issues; [unfold shape_issues; do 5 right; left; reflexivity|].
    unfold Zod.field. rewrite Hv.
    destruct v; try (left; reflexivity). contradiction Hty. reflexivity.
Qed.

(** C6 fails as stated: the body [null] violates the schema and is
    answered by the guard of line 23, whose 400 has no [errors]. *)
Lemma schema_violation_as_stated_fails :
  ~ schema_violation_as_stated (mkRequest (inr JNull) (Some Scenario.admin)) Scenario.params
      Scenario.world.
Proof.
  intros H.
  destruct (H JNull [Zod.issue (Zod.invalid_type "object" Zod.t_null) []])
    as (r & w' & fields & errors & Hr & _ & Hb & He); try reflexivity.
  unfold answers in Hr. vm_compute in Hr. injection Hr as <- <-.
  injection Hb as <-. discriminate.
Qed.

(** C6, amended: a body that violates the schema is answered 400 and
    nothing is written.  A truthy body is answered "Validation failed"
    with an [errors] array, one entry per issue, each with its path and a
    message; for an object body the issues are those of its keys, each
    under the name of the offending key, and for any other body the one
    issue is at the root.  A falsy body is answered "Request body is
    empty or malformed", without an [errors] array. *)
Theorem schema_violation_answers_400
    (req : Request) (params : Params.t) (w : World)
    (body : json) (issues : list Zod.ZodIssue) :
  json_body req = inr body ->
  updateThesisSchema [] (Some body) = inl issues ->
  answers req params w
    (if truthy body
     then NextResponse.json
            (JObj [message "Validation failed"; ("errors", JArr (ZodJson.issue <$> issues))])
            (Some 400)
     else NextResponse.json (JObj [message "Request body is empty or malformed"]) (Some 400))
    w
  /\ issues <> []
  /\ (forall i, In i issues ->
        exists fields text,
          ZodJson.issue i = JObj fields
          /\ obj_get "path" fields = Some (JArr (ZodJson.segment <$> Zod.path i))
          /\ obj_get "message" fields = Some (JStr text))
  /\ match body with
     | JObj props => lists_violations_per_field props issues
     | _ => issues = [Zod.issue (Zod.invalid_type "object" (Zod.getParsedType (Some body))) []]
     end.
Proof.
  intros Hjson Hschema. split; [|split; [|split]].
  - destruct (truthy body) eqn:Htruthy.
    + eapply PUT_invalid_body; eauto.
    + eapply PUT_falsy_body; eauto.
  - pose proof (schema_reports [] (Some body)) as H. rewrite Hschema in H. exact H.
  - intros i _. apply issue_json_path_message.
  - destruct body as [| | | | |props];
      try (unfold updateThesisSchema in Hschema; injection Hschema as <-; reflexivity).
    pose proof (schema_object_issues props) as H. rewrite Hschema in H. simpl in H.
    rewrite H. apply shape_lists_violations.
Qed.

Lemma schema_violation_answers_400_witness :
  let issues := [Zod.issue (Zod.invalid_enum_value statuses "Archived") [Zod.Key "status"]] in
  answers (Scenario.put [("status", JStr "Archived")]) Scenario.params Scenario.world
    (NextResponse.json
       (JObj [message "Validation failed"; ("errors", JArr (ZodJson.issue <$> issues))])
       (Some 400)) Scenario.world
  /\ lists_violations_per_field [("status", JStr "Archived")] issues.
Proof.
  intros issues.
  destruct (schema_violation_answers_400
              (Scenario.put [("status", JStr "Archived")]) Scenario.params Scenario.world
              (JObj [("status", JStr "Archived")]) issues)
    as (Ha & _ & _ & Hl); try reflexivity.
  split; [exact Ha|exact Hl].
Defined.

(** ** C7: merge-patch *)

Lemma array_items_string_inr (p : list Zod.PathSeg) (items : list json) :
  forall (i : nat) (l : list string),
    Zod.array_items Zod.string p i items = inr l -> items = JStr <$> l.
Proof.
  induction items as [|v rest IH]; intros i l; cbn [Zod.array_items].
  - intros H. injection H as <-. reflexivity.
  - intros H. apply ap_inr in H as (f & l' & H & Hrest & ->).
    apply ap_inr in H as (g & s & Hg & Hs & ->). injection Hg as <-.
    apply IH in Hrest as ->. unfold Zod.string in Hs.
    destruct v; try discriminate. injection Hs as ->. reflexivity.
Qed.

Lemma optional_array_inr p input o :
  Zod.optional (Zod.array Zod.string) p input = inr o ->
  match o with
  | None => input = None
  | Some l => input = Some (JArr (JStr <$> l))
  end.
Proof.
  unfold Zod.optional, Zod.array.
  destruct input as [v|]; [|intros H; injection H as <-; reflexivity].
  intros H. apply ap_inr in H as (f & l & Hf & H & ->). injection Hf as <-.
  destruct v; try discriminate. apply array_items_string_inr in H as ->. reflexivity.
Qed.

Lemma optional_enum_inr values p input o :
  Zod.optional (Zod.enum values) p input = inr o ->
  match o with
  | None => input = None
  | Some s => input = Some (JStr s) /\ In s values
  end.
Proof.
  unfold Zod.optional, Zod.enum.
  destruct input as [v|]; [|intros H; injection H as <-; reflexivity].
  intros H. apply ap_inr in H as (f & l & Hf & H & ->). injection Hf as <-.
  destruct v; try discriminate.
  destruct (existsb (String.eqb s) values) eqn:Hex; [|discriminate].
  injection H as <-. split; [reflexivity|].
  apply existsb_exists in Hex as (v & Hin & Heq). apply String.eqb_eq in Heq as ->. exact Hin.
Qed.

Lemma update_data_merged (props : list (string * json)) (b : ParsedBody.t)
    (us : list User.t) (author : option User.t) (row : ThesisRow.t) (t : Date) :
  parse updateThesisSchema (JObj props) = inr b ->
  resolved us b author ->
  merged props us row (prisma.thesis.apply (update_data b author row) row t).
Proof.
  intros Hparse Hres.
  apply parse_inr, schema_inr in Hparse
    as (props' & Hp & Htitle & Hauthor & Hcategory & Hkeywords & Habstract & Hstatus).
  injection Hp as <-. unfold Zod.field in *.
  apply optional_string_min_inr in Htitle, Hauthor.
  apply optional_string_inr in Hcategory, Habstract.
  apply optional_array_inr in Hkeywords. apply optional_enum_inr in Hstatus.
  unfold merged, patched, resolved, update_data, nullish in *. simpl.
  destruct b as [title author_name category keywords abstract status]; simpl in *.
  repeat split.
  - destruct title; [destruct Htitle as [-> _]|rewrite Htitle]; reflexivity.
  - destruct category; rewrite Hcategory; reflexivity.
  - destruct keywords; rewrite Hkeywords; reflexivity.
  - destruct abstract; rewrite Habstract; reflexivity.
  - destruct status; [destruct Hstatus as [-> _]|rewrite Hstatus]; reflexivity.
  - destruct author_name as [name|].
    + destruct Hauthor as [-> _]. destruct Hres as [Hu [u ->]].
      apply user_by_username_Some in Hu as [Hin <-]. exists u. auto.
    + rewrite Hauthor. subst author. reflexivity.
Qed.

(** Once the thesis and the author are found the row is stored, whatever
    fails afterwards. *)
Lemma PUT_stores (req : Request) (params : Params.t) (w : World) (payload : json)
    (b : ParsedBody.t) (n : Z) (row : ThesisRow.t) (author : option User.t) :
  json_body req = inr payload ->
  parse updateThesisSchema payload = inr b ->
  BigInt (Params.id params) = inr n ->
  theses w !! n = Some row ->
  resolved (users w) b author ->
  exists r w',
    PUT req params w = (inr r, w')
    /\ theses w' = <[n := prisma.thesis.apply (update_data b author row) row (now w)]> (theses w)
    /\ users w' = users w
    /\ now w' = now w.
Proof.
  intros Hjson Hparse Hid Hrow Hres. unfold resolved in Hres.
  destruct (ParsedBody.author_name b) as [name|] eqn:Hname.
  - destruct Hres as [Hu [a ->]].
    destruct (toISOString (ThesisRow.created_at row)) as [e|created] eqn:Hc.
    { eexists _, _. split; [eapply PUT_created_at_invalid; eauto|]. repeat split. }
    destruct (toISOString (now w)) as [e|stamped] eqn:Hs.
    { eexists _, _. split; [eapply PUT_updated_at_invalid; eauto|]. repeat split. }
    destruct (session_user req) as [currentUser|] eqn:Hcu.
    + eexists _, _. split; [eapply PUT_success; eauto|]. repeat split.
    + eexists _, _. split; [eapply PUT_no_session; eauto|]. repeat split.
  - subst author. eexists _, _. split; [eapply PUT_author_omitted; eauto|]. repeat split.
Qed.

(** C7 fails as stated: a valid body with a new title and the unknown
    author "ghost" is answered 404 and the stored title stays "X". *)
Lemma merge_patch_as_stated_fails :
  ~ merge_patch_as_stated
      (Scenario.put [("title", JStr "Y"); ("author_name", JStr "ghost")])
      Scenario.params Scenario.world.
Proof.
  intros H.
  destruct (H [("title", JStr "Y"); ("author_name", JStr "ghost")]
              (ParsedBody.mk (Some "Y") (Some "ghost") None None None None)
              7 Scenario.thesis_X)
    as (r & w' & row' & Hr & Hrow & Htitle & _); try reflexivity.
  unfold answers in Hr. vm_compute in Hr. injection Hr as <- <-.
  vm_compute in Hrow. injection Hrow as <-.
  unfold patched in Htitle. simpl in Htitle. discriminate.
Qed.

(** C7, amended: for a body that passes validation and whose
    [author_name], when present, is the name of a user, put on a stored
    thesis, the stored row afterwards is the old row patched by the body:
    every key that is present carries the stored value, every key that is
    absent left its column as it was; no other row changes.  A body with
    [category] alone leaves title, keywords, abstract, status and
    author_id as they were. *)
Theorem merge_patch
    (req : Request) (params : Params.t) (w : World)
    (props : list (string * json)) (b : ParsedBody.t) (n : Z) (row : ThesisRow.t) :
  json_body req = inr (JObj props) ->
  parse updateThesisSchema (JObj props) = inr b ->
  path_id params n ->
  theses w !! n = Some row ->
  (forall name, obj_get "author_name" props = Some (JStr name) ->
                is_Some (prisma.user_by_username (users w) name)) ->
  exists r w' row',
    answers req params w r w'
    /\ theses w' = <[n := row']> (theses w)
    /\ merged props (users w) row row'
    /\ ((forall k, k <> "category" -> obj_get k props = None) ->
        ThesisRow.title row' = ThesisRow.title row
        /\ ThesisRow.keywords row' = ThesisRow.keywords row
        /\ ThesisRow.abstract row' = ThesisRow.abstract row
        /\ ThesisRow.status row' = ThesisRow.status row
        /\ ThesisRow.author_id row' = ThesisRow.author_id row).
Proof.
  intros Hjson Hparse Hid Hrow Hknown.
  assert (exists author, resolved (users w) b author) as [author Hres].
  { unfold resolved. pose proof (parsed_author_name _ _ Hparse) as H.
    destruct (ParsedBody.author_name b) as [name|]; [|eauto].
    destruct H as [H _]. eauto. }
  destruct (PUT_stores _ _ _ _ _ _ _ _ Hjson Hparse Hid Hrow Hres) as (r & w' & Hr & Ht & _).
  pose proof (update_data_merged _ _ _ _ row (now w) Hparse Hres) as Hm.
  exists r, w', (prisma.thesis.apply (update_data b author row) row (now w)).
  split; [exact Hr|]. split; [exact Ht|]. split; [exact Hm|].
  intros Honly. destruct Hm as (H1 & _ & H3 & H4 & H5 & H6 & _).
  unfold patched in *.
  rewrite (Honly "title") in H1 by discriminate.
  rewrite (Honly "keywords") in H3 by discriminate.
  rewrite (Honly "abstract") in H4 by discriminate.
  rewrite (Honly "status") in H5 by discriminate.
  rewrite (Honly "author_name") in H6 by discriminate.
  auto.
Qed.

Lemma merge_patch_witness :
  exists r w' row',
    answers (Scenario.put [("category", JStr "AI")]) Scenario.params Scenario.world r w'
    /\ theses w' = <[7 := row']> (theses Scenario.world)
    /\ ThesisRow.category row' = "AI"
    /\ ThesisRow.title row' = "X"
    /\ ThesisRow.author_id row' = 1.
Proof.
  destruct (merge_patch
              (Scenario.put [("category", JStr "AI")]) Scenario.params Scenario.world
              [("category", JStr "AI")] (ParsedBody.mk None None (Some "AI") None None None)
              7 Scenario.thesis_X)
    as (r & w' & row' & Hr & Ht & Hm & Honly); try reflexivity.
  - intros name H. discriminate.
  - exists r, w', row'. split; [exact Hr|]. split; [exact Ht|].
    destruct Hm as (_ & Hc & _). unfold patched in Hc. simpl in Hc. injection Hc as Hc.
    destruct Honly as (H1 & _ & _ & _ & H5).
    + intros k Hk. simpl. destruct (String.eqb_spec k "category"); [contradiction|reflexivity].
    + auto.
Defined.

(** ** C8: the same payload twice *)

(** Updating a row that already carries the data changes its stamp only. *)
Lemma apply_update_data_twice (b : ParsedBody.t) (author : option User.t)
    (row : ThesisRow.t) (t1 t2 : Date) :
  let row1 := prisma.thesis.apply (update_data b author row) row t1 in
  prisma.thesis.apply (update_data b author row1) row1 t2 = stamped t2 row1.
Proof.
  destruct b as [title author_name category keywords abstract status].
  unfold prisma.thesis.apply, update_data, stamped, nullish. simpl.
  destruct title, category, keywords, abstract, status, author; reflexivity.
Qed.

(** C8: a full payload with valid values, whose [author_name] is the name
    of a user, is put twice on a stored thesis, the second time at any
    later clock reading and from any session: the thesis table after the
    second call is the table after the first call, except that the row of
    the thesis carries the [updated_at] of the second call. *)
Theorem full_update_twice
    (req1 req2 : Request) (params : Params.t) (w : World)
    (props : list (string * json)) (b : ParsedBody.t) (n : Z) (row : ThesisRow.t)
    (name : string) (t2 : Date) :
  json_body req1 = inr (JObj props) ->
  json_body req2 = inr (JObj props) ->
  parse updateThesisSchema (JObj props) = inr b ->
  full props ->
  obj_get "author_name" props = Some (JStr name) ->
  is_Some (prisma.user_by_username (users w) name) ->
  path_id params n ->
  theses w !! n = Some row ->
  exists r1 w1 r2 w2 row1,
    answers req1 params w r1 w1
    /\ answers req2 params (at_time t2 w1) r2 w2
    /\ theses w1 !! n = Some row1
    /\ theses w2 = <[n := stamped t2 row1]> (theses w1).
Proof.
  intros Hjson1 Hjson2 Hparse _ Hname Hknown Hid Hrow.
  assert (resolved (users w) b (prisma.user_by_username (users w) name)) as Hres.
  { unfold resolved. pose proof (parsed_author_name _ _ Hparse) as H.
    destruct (ParsedBody.author_name b) as [name'|].
    - destruct H as [H _]. rewrite Hname in H. injection H as <-. auto.
    - congruence. }
  set (author := prisma.user_by_username (users w) name) in *.
  destruct (PUT_stores _ _ _ _ _ _ _ _ Hjson1 Hparse Hid Hrow Hres)
    as (r1 & w1 & Hr1 & Ht1 & Hu1 & _).
  set (row1 := prisma.thesis.apply (update_data b author row) row (now w)) in *.
  assert (theses (at_time t2 w1) !! n = Some row1) as Hrow1.
  { simpl. rewrite Ht1. apply lookup_insert_eq. }
  assert (resolved (users (at_time t2 w1)) b author) as Hres1.
  { simpl. rewrite Hu1. exact Hres. }
  destruct (PUT_stores _ _ _ _ _ _ _ _ Hjson2 Hparse Hid Hrow1 Hres1)
    as (r2 & w2 & Hr2 & Ht2 & _).
  exists r1, w1, r2, w2, row1. split; [exact Hr1|]. split; [exact Hr2|].
  split; [exact Hrow1|].
  rewrite Ht2. simpl. unfold row1. rewrite apply_update_data_twice. reflexivity.
Qed.

Lemma full_update_twice_witness :
  let props := [("title", JStr "Y"); ("author_name", JStr "admin"); ("category", JStr "AI");
                ("keywords", JArr [JStr "logic"]); ("abstract", JStr "New.");
                ("status", JStr "Approved")] in
  exists r1 w1 r2 w2 row1,
    answers (Scenario.put props) Scenario.params Scenario.world r1 w1
    /\ answers (Scenario.put props) Scenario.params (at_time 1700000200000 w1) r2 w2
    /\ theses w1 !! 7 = Some row1
    /\ theses w2 = <[7 := stamped 1700000200000 row1]> (theses w1).
Proof.
  intros props.
  apply (full_update_twice (Scenario.put props) (Scenario.put props) Scenario.params
           Scenario.world props
           (ParsedBody.mk (Some "Y") (Some "admin") (Some "AI") (Some ["logic"]) (Some "New.")
              (Some "Approved"))
           7 Scenario.thesis_X "admin" 1700000200000); try reflexivity.
  - repeat constructor; eexists; reflexivity.
  - eexists. reflexivity.
Defined.

(** ** C9: the identifier and the timestamps in the 200 answer *)

(** *** The identifier *)

Lemma below_ten (d : Z) :
  0 <= d < 10 ->
  d = 0 \/ d = 1 \/ d = 2 \/ d = 3 \/ d = 4 \/ d = 5 \/ d = 6 \/ d = 7 \/ d = 8 \/ d = 9.
Proof. lia. Qed.

Lemma digit_char_value (d : Z) : 0 <= d < 10 -> digit_value 10 (digit_char d) = Some d.
Proof.
  intros H. destruct (below_ten d H) as [->|[->|[->|[->|[->|[->|[->|[->|[->| ->]]]]]]]]];
    reflexivity.
Qed.

Lemma digit_char_is_digit (d : Z) : 0 <= d < 10 -> is_digit (digit_char d) = true.
Proof.
  intros H. destruct (below_ten d H) as [->|[->|[->|[->|[->|[->|[->|[->|[->| ->]]]]]]]]];
    reflexivity.
Qed.

Lemma mod_ten (n : Z) : 0 <= n mod 10 < 10.
Proof. apply Z.mod_pos_bound. lia. Qed.

Lemma append_cons (x : ascii) (a b : string) : String x a +:+ b = String x (a +:+ b).
Proof. reflexivity. Qed.

Lemma append_assoc (a b c : string) : (a +:+ b) +:+ c = a +:+ (b +:+ c).
Proof.
  induction a as [|x a IH]; [reflexivity|]. rewrite !append_cons, IH. reflexivity.
Qed.

Lemma all_append (f : ascii -> bool) (a b : string) :
  all f (a +:+ b) = all f a && all f b.
Proof.
  induction a as [|x a IH]; [reflexivity|].
  rewrite append_cons. simpl. rewrite IH, andb_assoc. reflexivity.
Qed.

Lemma decimal_digits_acc (fuel : nat) :
  forall n acc, decimal_digits fuel n acc = decimal_digits fuel n "" +:+ acc.
Proof.
  induction fuel as [|fuel IH]; intros n acc; cbn [decimal_digits]; [reflexivity|].
  destruct (n <=? 0); [reflexivity|].
  rewrite (IH (n / 10) (String (digit_char (n mod 10)) acc)).
  rewrite (IH (n / 10) (String (digit_char (n mod 10)) "")).
  rewrite append_assoc. reflexivity.
Qed.

Lemma digits_value_append (radix : Z) (a b : string) :
  forall acc,
    digits_value radix acc (a +:+ b)
    = match digits_value radix acc a with
      | Some v => digits_value radix v b
      | None => None
      end.
Proof.
  induction a as [|x a IH]; intros acc; [reflexivity|].
  rewrite append_cons. simpl.
  destruct (digit_value radix x); [apply IH|reflexivity].
Qed.

Lemma digits_value_decimal (fuel : nat) :
  forall n, 0 <= n < 2 ^ Z.of_nat fuel ->
            digits_value 10 0 (decimal_digits fuel n "") = Some n.
Proof.
  induction fuel as [|fuel IH]; intros n Hn.
  - simpl in *. assert (n = 0) as -> by lia. reflexivity.
  - cbn [decimal_digits]. destruct (Z.leb_spec n 0) as [H0|Hpos].
    + assert (n = 0) as -> by lia. reflexivity.
    + rewrite decimal_digits_acc, digits_value_append, IH.
      * cbn [digits_value]. rewrite digit_char_value by apply mod_ten. f_equal.
        pose proof (Z.div_mod n 10). lia.
      * rewrite Nat2Z.inj_succ, Z.pow_succ_r in Hn by lia.
        split; [apply Z.div_pos; lia|].
        apply Z.div_lt_upper_bound; lia.
Qed.

Lemma all_digits_decimal_digits (fuel : nat) :
  forall n acc, all is_digit acc = true -> all is_digit (decimal_digits fuel n acc) = true.
Proof.
  induction fuel as [|fuel IH]; intros n acc Hacc; cbn [decimal_digits]; [exact Hacc|].
  destruct (n <=? 0); [exact Hacc|]. apply IH. cbn [all].
  rewrite digit_char_is_digit by apply mod_ten. exact Hacc.
Qed.

Lemma decimal_positive (n : Z) :
  0 < n ->
  exists s c, decimal n = s +:+ String c ""
              /\ all is_digit (decimal n) = true
              /\ digits_value 10 0 (decimal n) = Some n.
Proof.
  intros Hn. unfold decimal. destruct (Z.eqb_spec n 0) as [->|_]; [lia|].
  exists (decimal_digits (Z.to_nat (Z.log2 n)) (n / 10) ""), (digit_char (n mod 10)).
  split; [|split].
  - cbn [decimal_digits]. destruct (Z.leb_spec n 0); [lia|]. apply decimal_digits_acc.
  - apply all_digits_decimal_digits. reflexivity.
  - apply digits_value_decimal. rewrite Nat2Z.inj_succ, Z2Nat.id by apply Z.log2_nonneg.
    pose proof (Z.log2_spec n Hn). lia.
Qed.

Lemma in_all (f : ascii -> bool) (s : string) :
  all f s = true -> forall c, In c (list_ascii_of_string s) -> f c = true.
Proof.
  induction s as [|x s IH]; cbn [all list_ascii_of_string]; intros H c Hin.
  - destruct Hin.
  - apply andb_true_iff in H as [Hx Hs]. destruct Hin as [<-|Hin]; auto.
Qed.

Lemma digit_cases (c : ascii) :
  is_digit c = true ->
  In c ["0"; "1"; "2"; "3"; "4"; "5"; "6"; "7"; "8"; "9"]%char.
Proof.
  destruct c as [[] [] [] [] [] [] [] []]; intros H; try discriminate H; simpl; tauto.
Qed.

(** No white space character starts with a digit or a minus sign, and
    none ends with one. *)
Lemma strip_any_plain (c : ascii) (rest : list ascii) :
  plain c = true ->
  strip_any StrWhiteSpaceChar (c :: rest) = None
  /\ strip_any (map (@rev nat) StrWhiteSpaceChar) (c :: rest) = None.
Proof.
  unfold plain. intros H. apply orb_true_iff in H as [H|H].
  - apply digit_cases in H. simpl in H.
    destruct H as [<-|[<-|[<-|[<-|[<-|[<-|[<-|[<-|[<-|[<-|[]]]]]]]]]]]; split; reflexivity.
  - apply Ascii.eqb_eq in H as ->. split; reflexivity.
Qed.

Lemma trim_start_id (table : list (list nat)) (fuel : nat) (l : list ascii) :
  strip_any table l = None -> trim_start table fuel l = l.
Proof. intros H. destruct fuel; [reflexivity|]. cbn [trim_start]. rewrite H. reflexivity. Qed.

(** Nothing is trimmed from a string of digits and minus signs. *)
Lemma trim_id (s : string) : all plain s = true -> trim s = s.
Proof.
  intros H. unfold trim. cbv zeta.
  assert (forall c, In c (list_ascii_of_string s) -> plain c = true) as Hin
    by exact (in_all _ _ H).
  assert (forall l : list ascii,
            (forall c, In c l -> plain c = true) ->
            forall table, table = StrWhiteSpaceChar \/ table = map (@rev nat) StrWhiteSpaceChar ->
            forall fuel, trim_start table fuel l = l) as Hid.
  { intros [|c l] Hl table Htable fuel;
      [destruct fuel, Htable as [-> | ->]; reflexivity|].
    apply trim_start_id.
    destruct (strip_any_plain c l (Hl c (or_introl eq_refl))) as [H1 H2].
    destruct Htable as [-> | ->]; assumption. }
  rewrite (Hid _ Hin) by (left; reflexivity).
  rewrite Hid.
  - rewrite rev_involutive. apply string_of_list_ascii_of_string.
  - intros c Hc. apply Hin, in_rev, Hc.
  - right. reflexivity.
Qed.

Lemma all_impl (f g : ascii -> bool) (s : string) :
  (forall c, f c = true -> g c = true) -> all f s = true -> all g s = true.
Proof.
  intros Hfg. induction s as [|x s IH]; cbn [all]; [reflexivity|].
  intros H. apply andb_true_iff in H as [Hx Hs]. rewrite (Hfg _ Hx), (IH Hs). reflexivity.
Qed.

Lemma digit_chars (c : ascii) :
  is_digit c = true ->
  plain c = true /\ Ascii.eqb c "+" = false /\ Ascii.eqb c "-" = false
  /\ Ascii.eqb c "x" = false /\ Ascii.eqb c "X" = false /\ Ascii.eqb c "o" = false
  /\ Ascii.eqb c "O" = false /\ Ascii.eqb c "b" = false /\ Ascii.eqb c "B" = false.
Proof.
  intros H. repeat split;
    try (apply Ascii.eqb_neq; intros ->; discriminate H).
  unfold plain. rewrite H. reflexivity.
Qed.

(** A string of digits is read as a decimal literal without sign. *)
Lemma StringToBigInt_digits (s : string) (c : ascii) :
  all is_digit (s +:+ String c "") = true ->
  StringToBigInt (s +:+ String c "") = digits_value 10 0 (s +:+ String c "").
Proof.
  intros H. unfold StringToBigInt. rewrite trim_id.
  2:{ revert H. apply all_impl. intros x Hx. apply digit_chars in Hx as [-> _]. reflexivity. }
  destruct s as [|c1 s].
  - change ("" +:+ String c "") with (String c "") in *. cbn [all] in H.
    rewrite andb_true_r in H.
    destruct (digit_chars _ H) as (_ & -> & -> & _). reflexivity.
  - rewrite append_cons in *. cbn [all] in H. apply andb_true_iff in H as [H1 H].
    destruct (digit_chars _ H1) as (_ & -> & -> & _).
    assert (radix_prefix (String c1 (s +:+ String c "")) = None) as ->; [|reflexivity].
    unfold radix_prefix. destruct s as [|c2 s].
    + change ("" +:+ String c "") with (String c "") in *. cbn [all] in H.
      rewrite andb_true_r in H.
      destruct (digit_chars _ H) as (_ & _ & _ & -> & -> & -> & -> & -> & ->).
      destruct (Ascii.eqb c1 "0"); reflexivity.
    + rewrite append_cons in *. cbn [all] in H. apply andb_true_iff in H as [H2 _].
      destruct (digit_chars _ H2) as (_ & _ & _ & -> & -> & -> & -> & -> & ->).
      destruct (Ascii.eqb c1 "0"); reflexivity.
Qed.

(** The printed identifier is a decimal literal, and reading it back
    gives the identifier: no digit is lost. *)
Lemma BigInt_toString_exact (n : Z) :
  decimal_literal (BigInt_toString n) = true /\ BigInt (BigInt_toString n) = inr n.
Proof.
  unfold BigInt, BigInt_toString. destruct (Z.ltb_spec n 0) as [Hneg|Hpos].
  - destruct (decimal_positive (- n)) as (s & c & Hs & Hall & Hval); [lia|].
    split.
    + cbn [decimal_literal]. replace (Ascii.eqb "-" "-") with true by reflexivity.
      rewrite Hall, Hs. destruct s; reflexivity.
    + unfold StringToBigInt. rewrite trim_id.
      * replace (Ascii.eqb "-" "+") with false by reflexivity.
        replace (Ascii.eqb "-" "-") with true by reflexivity.
        unfold digits. rewrite Hs at 1. 
        replace (match s +:+ String c "" with "" => None | _ => digits_value 10 0 (decimal (- n)) end)
          with (digits_value 10 0 (decimal (- n))) by (destruct s; reflexivity).
        rewrite Hval. cbn. f_equal. lia.
      * cbn [all]. replace (plain "-") with true by reflexivity.
        revert Hall. apply all_impl. intros x Hx. apply digit_chars in Hx as [-> _]. reflexivity.
  - destruct (Z.eq_dec n 0) as [->|Hne]; [split; reflexivity|].
    destruct (decimal_positive n) as (s & c & Hs & Hall & Hval); [lia|].
    split.
    + rewrite Hs in *. destruct s as [|c1 s].
      * change ("" +:+ String c "") with (String c "") in *.
        cbn [decimal_literal all] in *. rewrite andb_true_r in Hall.
        destruct (digit_chars _ Hall) as (_ & _ & -> & _). rewrite Hall. reflexivity.
      * rewrite append_cons in *. cbn [decimal_literal]. cbn [all] in Hall.
        pose proof Hall as Hall'. apply andb_true_iff in Hall' as [H1 _].
        destruct (digit_chars _ H1) as (_ & _ & -> & _). exact Hall.
    + rewrite Hs in Hall |- *. rewrite StringToBigInt_digits by exact Hall.
      rewrite <- Hs, Hval. reflexivity.
Qed.

(** *** The timestamps *)

(** The calendar of [civil_from_days]: the day of the year counted from
    the first of March is within 0 and 365, so the month is within 1 and 12
    and the day of the month within 1 and 31. *)
Lemma day_of_year_range (doe : Z) :
  0 <= doe < 146097 ->
  let yoe := (doe - doe / 1460 + doe / 36524 - doe / 146096) / 365 in
  0 <= doe - (365 * yoe + yoe / 4 - yoe / 100) <= 365.
Proof. intros H yoe. subst yoe. Z.div_mod_to_equations. lia. Qed.

Lemma month_day_range (doy : Z) :
  0 <= doy <= 365 ->
  let mp := (5 * doy + 2) / 153 in
  1 <= (if mp <? 10 then mp + 3 else mp - 9) <= 12
  /\ 1 <= doy - (153 * mp + 2) / 5 + 1 <= 31.
Proof.
  intros H mp. subst mp.
  destruct (Z.ltb_spec ((5 * doy + 2) / 153) 10); Z.div_mod_to_equations; lia.
Qed.

Lemma civil_from_days_range (days : Z) :
  let '(y, m, d) := civil_from_days days in 1 <= m <= 12 /\ 1 <= d <= 31.
Proof.
  unfold civil_from_days. cbv zeta.
  apply month_day_range, day_of_year_range, Z.mod_pos_bound. lia.
Qed.

Lemma two_digits_pad (n : Z) :
  0 <= n < 100 ->
  two_digits (digit_char (n / 10 mod 10)) (digit_char (n mod 10)) = Some n.
Proof.
  intros H. unfold two_digits. rewrite !digit_char_value by apply mod_ten.
  f_equal. Z.div_mod_to_equations. lia.
Qed.

Lemma within_pad (lo hi n : Z) :
  0 <= n < 100 -> lo <= n <= hi ->
  within lo hi (two_digits (digit_char (n / 10 mod 10)) (digit_char (n mod 10))) = true.
Proof. intros H Hn. rewrite two_digits_pad by exact H. unfold within. lia. Qed.

Lemma month_to_zone_pads (m d ms : Z) :
  1 <= m <= 12 -> 1 <= d <= 31 -> 0 <= ms < msPerDay ->
  month_to_zone
    ("-" +:+ pad 2 m +:+ "-" +:+ pad 2 d +:+ "T" +:+
     pad 2 (ms / 3600000) +:+ ":" +:+ pad 2 (ms / 60000 mod 60) +:+ ":" +:+
     pad 2 (ms / 1000 mod 60) +:+ "." +:+ pad 3 (ms mod 1000) +:+ "Z") = true.
Proof.
  intros Hm Hd Hms. unfold msPerDay in Hms.
  cbv [month_to_zone pad append list_ascii_of_string].
  rewrite !within_pad, !digit_char_is_digit; try apply mod_ten; try reflexivity;
    try (Z.div_mod_to_equations; lia).
Qed.

Lemma iso8601_year (y : Z) (rest : string) :
  month_to_zone rest = true -> iso8601 (year_string y +:+ rest) = true.
Proof.
  intros Hrest. unfold year_string.
  destruct ((0 <=? y) && (y <=? 9999)).
  - cbv [iso8601 pad append]. rewrite !digit_char_is_digit by apply mod_ten. exact Hrest.
  - destruct (y <? 0); cbv [iso8601 pad append];
      rewrite !digit_char_is_digit by apply mod_ten;
      rewrite Hrest; reflexivity.
Qed.

(** Whatever [toISOString] returns is an ISO 8601 date-time. *)
Lemma toISOString_iso8601 (d : Date) (s : string) :
  toISOString d = inr s -> iso8601 s = true.
Proof.
  unfold toISOString. destruct (8640000000000000 <? Z.abs d); [discriminate|].
  pose proof (civil_from_days_range (d / msPerDay)) as Hrange.
  destruct (civil_from_days (d / msPerDay)) as [[y m] dd]. destruct Hrange as [Hm Hd].
  intros H. injection H as <-.
  apply iso8601_year, month_to_zone_pads; try assumption.
  apply Z.mod_pos_bound. reflexivity.
Qed.

(** *** The printed timestamp read back *)

Lemma days_from_civil_from_days (days : Z) :
  let '(y, m, d) := civil_from_days days in days_from_civil y m d = days.
Proof.
  unfold civil_from_days, days_from_civil. cbv zeta.
  set (z := days + 719468).
  set (doe := z mod 146097).
  set (yoe := (doe - doe / 1460 + doe / 36524 - doe / 146096) / 365).
  set (doy := doe - (365 * yoe + yoe / 4 - yoe / 100)).
  set (mp := (5 * doy + 2) / 153).
  assert (0 <= doe < 146097) as Hdoe by (apply Z.mod_pos_bound; lia).
  assert (0 <= yoe <= 399) as Hyoe by (subst yoe; Z.div_mod_to_equations; lia).
  assert (0 <= doy <= 365) as Hdoy by (apply day_of_year_range; exact Hdoe).
  assert (0 <= mp <= 11) as Hmp by (subst mp; Z.div_mod_to_equations; lia).
  set (m := if mp <? 10 then mp + 3 else mp - 9).
  assert ((if m <=? 2 then yoe + z / 146097 * 400 + (if m <=? 2 then 1 else 0) - 1
           else yoe + z / 146097 * 400 + (if m <=? 2 then 1 else 0))
          = yoe + z / 146097 * 400) as ->.
  { destruct (m <=? 2); lia. }
  assert ((if 2 <? m then m - 3 else m + 9) = mp) as ->.
  { subst m. destruct (Z.ltb_spec mp 10); [destruct (Z.ltb_spec 2 (mp + 3))|destruct (Z.ltb_spec 2 (mp - 9))]; lia. }
  assert ((yoe + z / 146097 * 400) / 400 = z / 146097) as ->.
  { Z.div_mod_to_equations. lia. }
  replace (yoe + z / 146097 * 400 - z / 146097 * 400) with yoe by lia.
  replace ((153 * mp + 2) / 5 + (doy - (153 * mp + 2) / 5 + 1) - 1) with doy by lia.
  subst doy. pose proof (Z.div_mod z 146097). subst doe z. lia.
Qed.

Lemma digits_value_pad (k : nat) :
  forall n acc,
    digits_value 10 acc (pad k n) = Some (acc * 10 ^ Z.of_nat k + n mod 10 ^ Z.of_nat k).
Proof.
  induction k as [|k IH]; intros n acc.
  - cbn [pad digits_value]. rewrite Z.mod_1_r. f_equal. lia.
  - cbn [pad]. rewrite digits_value_append, IH. cbn [digits_value].
    rewrite digit_char_value by apply mod_ten. f_equal.
    rewrite Nat2Z.inj_succ, Z.pow_succ_r by lia.
    rewrite (Z.rem_mul_r n 10 (10 ^ Z.of_nat k)) by lia. lia.
Qed.

Lemma read_digits_pad (k : nat) (n : Z) :
  0 <= n < 10 ^ Z.of_nat k -> read_digits (list_ascii_of_string (pad k n)) = Some n.
Proof.
  intros H. unfold read_digits.
  rewrite string_of_list_ascii_of_string, digits_value_pad, Z.mod_small by exact H.
  reflexivity.
Qed.

Lemma read_month_to_zone_pads (m d ms : Z) :
  1 <= m <= 12 -> 1 <= d <= 31 -> 0 <= ms < msPerDay ->
  read_month_to_zone
    ("-" +:+ pad 2 m +:+ "-" +:+ pad 2 d +:+ "T" +:+
     pad 2 (ms / 3600000) +:+ ":" +:+ pad 2 (ms / 60000 mod 60) +:+ ":" +:+
     pad 2 (ms / 1000 mod 60) +:+ "." +:+ pad 3 (ms mod 1000) +:+ "Z")
  = Some (m, d, ms).
Proof.
  intros Hm Hd Hms. unfold msPerDay in Hms.
  assert (forall n, 0 <= n < 100 ->
            read_digits [digit_char (n / 10 mod 10); digit_char (n mod 10)] = Some n) as H2.
  { intros n Hn. exact (read_digits_pad 2 n Hn). }
  assert (forall n, 0 <= n < 1000 ->
            read_digits [digit_char (n / 10 / 10 mod 10); digit_char (n / 10 mod 10);
                         digit_char (n mod 10)] = Some n) as H3.
  { intros n Hn. exact (read_digits_pad 3 n Hn). }
  cbv [read_month_to_zone pad append list_ascii_of_string].
  rewrite !H2, H3 by (Z.div_mod_to_equations; lia).
  cbn [mbind option_bind]. do 2 f_equal. Z.div_mod_to_equations. lia.
Qed.

Lemma Date_parse_year (y m d ms : Z) (rest : string) :
  Z.abs y <= 999999 ->
  month_to_zone rest = true ->
  read_month_to_zone rest = Some (m, d, ms) ->
  Date_parse (year_string y +:+ rest) = Some (days_from_civil y m d * msPerDay + ms).
Proof.
  intros Hy Hzone Hrest. unfold Date_parse.
  rewrite (iso8601_year y rest Hzone). unfold year_string.
  destruct (Z.leb_spec 0 y) as [H0|H0]; [destruct (Z.leb_spec y 9999) as [H1|H1]|]; cbn [andb].
  - assert (0 <= y < 10 ^ Z.of_nat 4) as H4 by (change (10 ^ Z.of_nat 4) with 10000; lia).
    apply read_digits_pad in H4.
    cbv [pad append list_ascii_of_string] in H4. cbv [pad append].
    rewrite digit_char_is_digit by apply mod_ten.
    rewrite H4, Hrest. reflexivity.
  - assert (0 <= Z.abs y < 10 ^ Z.of_nat 6) as H6
      by (change (10 ^ Z.of_nat 6) with 1000000; lia).
    apply read_digits_pad in H6.
    cbv [pad append list_ascii_of_string] in H6.
    destruct (Z.ltb_spec y 0); [lia|]. cbv [pad append].
    change (is_digit "+") with false. cbv iota.
    rewrite H6, Hrest. change (Ascii.eqb "+" "-") with false.
    cbn [mbind option_bind]. rewrite Z.abs_eq by lia. reflexivity.
  - assert (0 <= Z.abs y < 10 ^ Z.of_nat 6) as H6
      by (change (10 ^ Z.of_nat 6) with 1000000; lia).
    apply read_digits_pad in H6.
    cbv [pad append list_ascii_of_string] in H6.
    destruct (Z.ltb_spec y 0); [|lia]. cbv [pad append].
    change (is_digit "-") with false. cbv iota.
    rewrite H6, Hrest. change (Ascii.eqb "-" "-") with true.
    cbn [mbind option_bind]. rewrite Z.abs_neq, Z.opp_involutive by lia. reflexivity.
Qed.

Lemma civil_from_days_year (days : Z) :
  Z.abs days <= 100000000 ->
  let '(y, m, d) := civil_from_days days in Z.abs y <= 999999.
Proof.
  intros H. unfold civil_from_days. cbv zeta.
  set (z := days + 719468).
  set (doe := z mod 146097).
  set (yoe := (doe - doe / 1460 + doe / 36524 - doe / 146096) / 365).
  assert (0 <= doe < 146097) as Hdoe by (apply Z.mod_pos_bound; lia).
  assert (0 <= yoe <= 399) as Hyoe by (subst yoe; Z.div_mod_to_equations; lia).
  assert (-700 <= z / 146097 <= 700) by (subst z; Z.div_mod_to_equations; lia).
  destruct (_ <=? 2); lia.
Qed.

(** [Date.parse] reads back the time value that [toISOString] printed. *)
Lemma Date_parse_toISOString (d : Date) (s : string) :
  toISOString d = inr s -> Date_parse s = Some d.
Proof.
  unfold toISOString. destruct (Z.ltb_spec 8640000000000000 (Z.abs d)) as [|Hd]; [discriminate|].
  pose proof (civil_from_days_range (d / msPerDay)) as Hrange.
  pose proof (days_from_civil_from_days (d / msPerDay)) as Hback.
  assert (Z.abs (d / msPerDay) <= 100000000) as Hdays
    by (unfold msPerDay; Z.div_mod_to_equations; lia).
  pose proof (civil_from_days_year (d / msPerDay) Hdays) as Hyear.
  destruct (civil_from_days (d / msPerDay)) as [[y m] dd]. destruct Hrange as [Hm Hdd].
  assert (0 <= d mod msPerDay < msPerDay) as Hms by (apply Z.mod_pos_bound; reflexivity).
  intros H. injection H as <-.
  rewrite (Date_parse_year y m dd (d mod msPerDay)).
  - rewrite Hback. f_equal. pose proof (Z.div_mod d msPerDay). unfold msPerDay in *. lia.
  - exact Hyear.
  - apply month_to_zone_pads; assumption.
  - apply read_month_to_zone_pads; assumption.
Qed.

(** *** The 200 answer *)

(** The only way to a 200: the body passes validation and names a user,
    the id is the key of a stored thesis, both timestamps print, and the
    session has a user. *)
Lemma PUT_200 (req : Request) (params : Params.t) (w : World) (r : Response) (w' : World) :
  PUT req params w = (inr r, w') ->
  status r = 200 ->
  exists payload b n row name a created_at updated_at currentUser,
    json_body req = inr payload
    /\ parse updateThesisSchema payload = inr b
    /\ BigInt (Params.id params) = inr n
    /\ theses w !! n = Some row
    /\ ParsedBody.author_name b = Some name
    /\ prisma.user_by_username (users w) name = Some a
    /\ toISOString (ThesisRow.created_at row) = inr created_at
    /\ toISOString (now w) = inr updated_at
    /\ session_user req = Some currentUser
    /\ let row' := prisma.thesis.apply (update_data b (Some a) row) row (now w) in
       r = NextResponse.json
             (JObj [message "Thesis updated successfully";
                    ("thesis", thesisResponse n row' (User.username a) created_at updated_at)])
             None
       /\ w' = audited (audit (ThesisRow.title row') currentUser)
                 (updated n b (Some a) row w).
Proof.
  intros HPUT H200.
  assert (forall e, r <> caught e) as Hcaught.
  { intros e ->. destruct (caught_status e); congruence. }
  destruct (json_body req) as [e|payload] eqn:Hjson.
  { rewrite (PUT_json_rejects _ _ _ _ Hjson) in HPUT. injection HPUT as <- <-.
    contradiction (Hcaught e). reflexivity. }
  destruct (truthy payload) eqn:Htruthy.
  2:{ rewrite (PUT_falsy_body _ _ _ _ Hjson Htruthy) in HPUT. injection HPUT as <- <-.
      discriminate. }
  destruct (updateThesisSchema [] (Some payload)) as [issues|b] eqn:Hschema.
  { rewrite (PUT_invalid_body _ _ _ _ _ Hjson Htruthy Hschema) in HPUT.
    injection HPUT as <- <-. discriminate. }
  apply parse_inr in Hschema.
  destruct (BigInt (Params.id params)) as [e|n] eqn:Hid.
  { rewrite (PUT_bad_id _ _ _ _ _ Hjson Hschema _ Hid) in HPUT. injection HPUT as <- <-.
    contradiction (Hcaught e). reflexivity. }
  destruct (theses w !! n) as [row|] eqn:Hrow.
  2:{ rewrite (PUT_thesis_not_found _ _ _ _ _ Hjson Hschema _ Hid Hrow) in HPUT.
      injection HPUT as <- <-. discriminate. }
  destruct (ParsedBody.author_name b) as [name|] eqn:Hname.
  2:{ rewrite (PUT_author_omitted _ _ _ _ _ Hjson Hschema _ Hid _ Hrow Hname) in HPUT.
      injection HPUT as <- <-. discriminate. }
  destruct (prisma.user_by_username (users w) name) as [a|] eqn:Ha.
  2:{ rewrite (PUT_author_not_found _ _ _ _ _ Hjson Hschema _ Hid _ Hrow _ Hname Ha) in HPUT.
      injection HPUT as <- <-. discriminate. }
  destruct (toISOString (ThesisRow.created_at row)) as [e|created_at] eqn:Hc.
  { rewrite (PUT_created_at_invalid _ _ _ _ _ Hjson Hschema _ Hid _ Hrow _ _ Hname Ha _ Hc)
      in HPUT.
    injection HPUT as <- <-. contradiction (Hcaught e). reflexivity. }
  destruct (toISOString (now w)) as [e|updated_at] eqn:Hu.
  { rewrite (PUT_updated_at_invalid _ _ _ _ _ Hjson Hschema _ Hid _ Hrow _ _ Hname Ha _ Hc _ Hu)
      in HPUT.
    injection HPUT as <- <-. contradiction (Hcaught e). reflexivity. }
  destruct (session_user req) as [currentUser|] eqn:Hs.
  2:{ rewrite (PUT_no_session _ _ _ _ _ Hjson Hschema _ Hid _ Hrow _ _ Hname Ha _ Hc _ Hu Hs)
        in HPUT.
      injection HPUT as <- <-. discriminate. }
  rewrite (PUT_success _ _ _ _ _ Hjson Hschema _ Hid _ Hrow _ _ Hname Ha _ Hc _ Hu _ Hs)
    in HPUT.
  injection HPUT as <- <-.
  exists payload, b, n, row, name, a, created_at, updated_at, currentUser.
  repeat split; assumption || reflexivity.
Qed.

(** C9: in every 200 answer the [thesis] object carries [thesis_id] as a
    string, the decimal literal of the identifier, which reads back as
    the identifier itself, and carries [created_at] and [updated_at] as
    strings, the ISO 8601 date-times of the stored row, each of which
    reads back as the time value the row holds. *)
Theorem success_prints_id_and_timestamps
    (req : Request) (params : Params.t) (w : World) (r : Response) (w' : World) :
  answers req params w r w' ->
  status r = 200 ->
  exists n row' top fields id_text created_text updated_text,
    path_id params n
    /\ theses w' !! n = Some row'
    /\ body r = JObj top
    /\ obj_get "thesis" top = Some (JObj fields)
    /\ obj_get "thesis_id" fields = Some (JStr id_text)
    /\ decimal_literal id_text = true
    /\ BigInt id_text = inr n
    /\ obj_get "created_at" fields = Some (JStr created_text)
    /\ toISOString (ThesisRow.created_at row') = inr created_text
    /\ iso8601 created_text = true
    /\ Date_parse created_text = Some (ThesisRow.created_at row')
    /\ obj_get "updated_at" fields = Some (JStr updated_text)
    /\ toISOString (ThesisRow.updated_at row') = inr updated_text
    /\ iso8601 updated_text = true
    /\ Date_parse updated_text = Some (ThesisRow.updated_at row').
Proof.
  intros HPUT H200.
  destruct (PUT_200 _ _ _ _ _ HPUT H200)
    as (payload & b & n & row & name & a & created_at & updated_at & currentUser
        & _ & _ & Hid & _ & _ & _ & Hc & Hu & _ & -> & ->).
  destruct (BigInt_toString_exact n) as [Hliteral Hexact].
  eexists n, _, _, _, _, _, _. split; [exact Hid|].
  split; [apply lookup_insert_eq|].
  split; [reflexivity|]. split; [reflexivity|]. split; [reflexivity|].
  split; [exact Hliteral|]. split; [exact Hexact|].
  split; [reflexivity|]. split; [exact Hc|]. split; [exact (toISOString_iso8601 _ _ Hc)|].
  split; [exact (Date_parse_toISOString _ _ Hc)|].
  split; [reflexivity|]. split; [exact Hu|]. split; [exact (toISOString_iso8601 _ _ Hu)|].
  exact (Date_parse_toISOString _ _ Hu).
Qed.

Lemma success_prints_id_and_timestamps_witness :
  exists r w',
    answers (Scenario.put [("author_name", JStr "alice"); ("category", JStr "AI")])
      Scenario.params Scenario.world r w'
    /\ status r = 200
    /\ exists n row' top fields id_text created_text updated_text,
         path_id Scenario.params n
         /\ theses w' !! n = Some row'
         /\ body r = JObj top
         /\ obj_get "thesis" top = Some (JObj fields)
         /\ obj_get "thesis_id" fields = Some (JStr id_text)
         /\ decimal_literal id_text = true
         /\ BigInt id_text = inr n
         /\ obj_get "created_at" fields = Some (JStr created_text)
         /\ toISOString (ThesisRow.created_at row') = inr created_text
         /\ iso8601 created_text = true
         /\ Date_parse created_text = Some (ThesisRow.created_at row')
         /\ obj_get "updated_at" fields = Some (JStr updated_text)
         /\ toISOString (ThesisRow.updated_at row') = inr updated_text
         /\ iso8601 updated_text = true
         /\ Date_parse updated_text = Some (ThesisRow.updated_at row').
Proof.
  eexists _, _. split; [unfold answers; vm_compute; reflexivity|]. split; [reflexivity|].
  apply (success_prints_id_and_timestamps
           (Scenario.put [("author_name", JStr "alice"); ("category", JStr "AI")])
           Scenario.params Scenario.world);
    [unfold answers; vm_compute; reflexivity|reflexivity].
Defined.

(** ** C10: the two writes of a successful call *)

(** C10: a call that is answered 200 made exactly these client calls, in
    this order: the lookup of the thesis, the lookup of the author, one
    update of the thesis row, one creation of a history row.  The
    description of the history row contains the title the thesis has after
    the update and the email of the session user. *)
Theorem success_updates_once_then_audits_once
    (req : Request) (params : Params.t) (w : World) (r : Response) (w' : World) :
  answers req params w r w' ->
  status r = 200 ->
  exists n name data row' entry currentUser,
    calls w' = calls w ++ [thesis_findUnique n; user_findUnique name;
                           thesis_update n data; history_create entry]
    /\ theses w' = <[n := row']> (theses w)
    /\ history w' = history w ++ [entry]
    /\ session_user req = Some currentUser
    /\ History.user_id entry = User.id currentUser
    /\ contains (ThesisRow.title row') (History.description entry)
    /\ contains (User.email currentUser) (History.description entry).
Proof.
  intros HPUT H200.
  destruct (PUT_200 _ _ _ _ _ HPUT H200)
    as (payload & b & n & row & name & a & created_at & updated_at & currentUser
        & _ & _ & _ & _ & _ & _ & _ & _ & Hs & _ & ->).
  eexists n, _, _, _, _, currentUser.
  split; [unfold audited, updated; cbn; rewrite <- app_assoc; reflexivity|].
  split; [reflexivity|]. split; [reflexivity|]. split; [exact Hs|]. split; [reflexivity|].
  split.
  - exists ("Thesis titled " +:+ dquote), (dquote +:+ " updated by " +:+ User.email currentUser).
    unfold audit. cbn. rewrite !append_assoc. reflexivity.
  - exists ("Thesis titled " +:+ dquote
              +:+ ThesisRow.title (prisma.thesis.apply (update_data b (Some a) row) row (now w))
              +:+ dquote +:+ " updated by "), "".
    unfold audit. cbn. rewrite !append_assoc.
    replace (User.email currentUser +:+ "") with (User.email currentUser); [reflexivity|].
    induction (User.email currentUser) as [|c s IH]; [reflexivity|].
    rewrite append_cons, <- IH. reflexivity.
Qed.

Lemma success_updates_once_then_audits_once_witness :
  exists r w',
    answers (Scenario.put [("author_name", JStr "alice"); ("category", JStr "AI")])
      Scenario.params Scenario.world r w'
    /\ status r = 200
    /\ exists n name data row' entry currentUser,
         calls w' = calls Scenario.world
                      ++ [thesis_findUnique n; user_findUnique name;
                          thesis_update n data; history_create entry]
         /\ theses w' = <[n := row']> (theses Scenario.world)
         /\ history w' = history Scenario.world ++ [entry]
         /\ session_user (Scenario.put [("author_name", JStr "alice"); ("category", JStr "AI")])
            = Some currentUser
         /\ History.user_id entry = User.id currentUser
         /\ contains (ThesisRow.title row') (History.description entry)
         /\ contains (User.email currentUser) (History.description entry).
Proof.
  eexists _, _. split; [unfold answers; vm_compute; reflexivity|]. split; [reflexivity|].
  eapply (success_updates_once_then_audits_once
           (Scenario.put [("author_name", JStr "alice"); ("category", JStr "AI")])
           Scenario.params Scenario.world);
    [unfold answers; vm_compute; reflexivity|reflexivity].
Defined.

(** * Further properties of the handler *)

(** ** The paths, all of them *)

Lemma toISOString_throws (d : Date) (e : Exn) :
  toISOString d = inl e -> e = RangeError "Invalid time value".
Proof.
  unfold toISOString. destruct (8640000000000000 <? Z.abs d).
  - intros H. injection H as <-. reflexivity.
  - destruct (civil_from_days (d / msPerDay)) as [[y m] dd]. discriminate.
Qed.

Lemma toISOString_returns (d : Date) (s : string) :
  toISOString d = inr s -> valid_time d.
Proof.
  unfold toISOString, valid_time.
  destruct (Z.ltb_spec 8640000000000000 (Z.abs d)) as [H|H]; [discriminate|].
  intros _. exact H.
Qed.

Lemma toISOString_valid (d : Date) :
  valid_time d -> exists s, toISOString d = inr s.
Proof.
  unfold toISOString, valid_time. intros H.
  destruct (Z.ltb_spec 8640000000000000 (Z.abs d)) as [H'|_]; [lia|].
  destruct (civil_from_days (d / msPerDay)) as [[y m] dd]. eauto.
Qed.

Lemma toISOString_invalid (d : Date) (e : Exn) :
  toISOString d = inl e -> ~ valid_time d.
Proof.
  intros H Hv. apply toISOString_valid in Hv as [s Hs]. congruence.
Qed.

(** Every call takes exactly one of the paths. *)
Lemma PUT_takes_a_path (req : Request) (params : Params.t) (w : World) :
  exists r w', PUT req params w = (inr r, w') /\ PUT_path req params w r w'.
Proof.
  destruct (json_body req) as [e|payload] eqn:Hjson.
  { eexists _, _. split; [eapply PUT_json_rejects; eauto|]. econstructor; eauto. }
  destruct (truthy payload) eqn:Htruthy.
  2:{ eexists _, _. split; [eapply PUT_falsy_body; eauto|]. econstructor; eauto. }
  destruct (updateThesisSchema [] (Some payload)) as [issues|b] eqn:Hschema.
  { eexists _, _. split; [eapply PUT_invalid_body; eauto|]. eapply path_invalid_body; eauto. }
  apply parse_inr in Hschema.
  destruct (BigInt (Params.id params)) as [e|n] eqn:Hid.
  { eexists _, _. split; [eapply PUT_bad_id; eauto|]. eapply path_bad_id; eauto. }
  destruct (theses w !! n) as [row|] eqn:Hrow.
  2:{ eexists _, _. split; [eapply PUT_thesis_not_found; eauto|].
      eapply path_thesis_not_found; eauto. }
  destruct (ParsedBody.author_name b) as [name|] eqn:Hname.
  2:{ eexists _, _. split; [eapply PUT_author_omitted; eauto|].
      eapply path_author_omitted; eauto. }
  destruct (prisma.user_by_username (users w) name) as [a|] eqn:Ha.
  2:{ eexists _, _. split; [eapply PUT_author_not_found; eauto|].
      eapply path_author_not_found; eauto. }
  destruct (toISOString (ThesisRow.created_at row)) as [e|created_at] eqn:Hc.
  { eexists _, _. split; [eapply PUT_created_at_invalid; eauto|].
    rewrite (toISOString_throws _ _ Hc). eapply path_date_invalid; eauto.
    intros [Hv _]. exact (toISOString_invalid _ _ Hc Hv). }
  destruct (toISOString (now w)) as [e|updated_at] eqn:Hu.
  { eexists _, _. split; [eapply PUT_updated_at_invalid; eauto|].
    rewrite (toISOString_throws _ _ Hu). eapply path_date_invalid; eauto.
    intros [_ Hv]. exact (toISOString_invalid _ _ Hu Hv). }
  destruct (session_user req) as [currentUser|] eqn:Hs.
  - eexists _, _. split; [eapply PUT_success; eauto|]. eapply path_success; eauto.
  - eexists _, _. split; [eapply PUT_no_session; eauto|].
    eapply path_no_session; eauto using toISOString_returns.
Qed.

Lemma answers_path (req : Request) (params : Params.t) (w : World) (r : Response) (w' : World) :
  answers req params w r w' -> PUT_path req params w r w'.
Proof.
  unfold answers. intros H. destruct (PUT_takes_a_path req params w) as (r0 & w0 & H0 & Hp).
  rewrite H0 in H. injection H as <- <-. exact Hp.
Qed.

Lemma parsed_supplies (req : Request) (payload : json) (b : ParsedBody.t) (name : string) :
  json_body req = inr payload ->
  parse updateThesisSchema payload = inr b ->
  ParsedBody.author_name b = Some name <-> supplies_author_name req name.
Proof.
  intros Hjson Hparse. destruct (parse_object _ _ Hparse) as [props ->].
  pose proof (parsed_author_name _ _ Hparse) as H. unfold supplies_author_name. split.
  - intros Hb. rewrite Hb in H. destruct H as [H _]. eauto.
  - intros (props' & Hj & Hget). rewrite Hjson in Hj. injection Hj as <-.
    destruct (ParsedBody.author_name b) as [name'|]; [destruct H as [H _]|]; congruence.
Qed.

(** ** What every answer looks like *)

(** X1: the handler never rejects: for every request it fulfils with a
    response whose status is 200, 400, 404 or 500 and whose body is an
    object with a [message] string. *)
Theorem PUT_always_answers (req : Request) (params : Params.t) (w : World) :
  exists r w' fields text,
    PUT req params w = (inr r, w')
    /\ In (status r) [200; 400; 404; 500]
    /\ body r = JObj fields
    /\ obj_get "message" fields = Some (JStr text).
Proof.
  destruct (PUT_takes_a_path req params w) as (r & w' & H & Hp).
  exists r, w'.
  destruct Hp; try match goal with |- context [caught ?e] => destruct e end;
    eexists _, _; (split; [exact H|]); simpl; (split; [tauto|]); split; reflexivity.
Qed.

(** X2: an answer 400 means the store was not contacted: the world after
    the call is the world before it, client log included. *)
Theorem answer_400_leaves_world (req : Request) (params : Params.t) (w : World)
    (r : Response) (w' : World) :
  answers req params w r w' ->
  status r = 400 ->
  w' = w.
Proof.
  intros H H400. apply answers_path in H.
  destruct H; try reflexivity; discriminate.
Qed.

Lemma answer_400_leaves_world_witness :
  exists r w',
    answers (Scenario.put [("title", JStr "")]) Scenario.params Scenario.world r w'
    /\ status r = 400
    /\ w' = Scenario.world.
Proof.
  eexists _, _. split; [unfold answers; vm_compute; reflexivity|]. split; [reflexivity|].
  eapply (answer_400_leaves_world (Scenario.put [("title", JStr "")]) Scenario.params);
    [unfold answers; vm_compute; reflexivity|reflexivity].
Defined.

(** X3: an answer 404 has exactly two causes, and neither writes: the id
    is the key of no thesis (one lookup was made), or the thesis is there
    and the body names an author no user has (two lookups were made). *)
Theorem answer_404_means_missing (req : Request) (params : Params.t) (w : World)
    (r : Response) (w' : World) :
  answers req params w r w' ->
  status r = 404 ->
  unchanged w w'
  /\ exists n,
       path_id params n
       /\ ((theses w !! n = None /\ calls w' = calls w ++ [thesis_findUnique n])
           \/ (exists name,
                 is_Some (theses w !! n)
                 /\ supplies_author_name req name
                 /\ prisma.user_by_username (users w) name = None
                 /\ calls w' = calls w ++ [thesis_findUnique n; user_findUnique name])).
Proof.
  intros H H404. apply answers_path in H. unfold path_id.
  destruct H; try discriminate;
    try (match goal with
         | Hs : status (caught ?e) = 404 |- _ => destruct (caught_status e); congruence
         end).
  - split; [repeat split|]. eexists. split; [eassumption|]. left.
    split; [assumption|reflexivity].
  - split; [repeat split|]. eexists. split; [eassumption|]. right. eexists.
    split; [eauto|]. split; [eapply parsed_supplies; eauto|]. split; [eassumption|reflexivity].
Qed.

Lemma answer_404_means_missing_witness :
  exists r w',
    answers (Scenario.put [("author_name", JStr "ghost")]) Scenario.params Scenario.world r w'
    /\ status r = 404
    /\ unchanged Scenario.world w'
    /\ calls w' = [thesis_findUnique 7; user_findUnique "ghost"].
Proof.
  eexists _, _. split; [unfold answers; vm_compute; reflexivity|]. split; [reflexivity|].
  destruct (answer_404_means_missing
              (Scenario.put [("author_name", JStr "ghost")]) Scenario.params Scenario.world
              (NextResponse.json (JObj [message "Author not found"]) (Some 404))
              (logged [thesis_findUnique 7; user_findUnique "ghost"] Scenario.world))
    as [Hu _]; [unfold answers; vm_compute; reflexivity|reflexivity|].
  split; [exact Hu|reflexivity].
Defined.

(** ** What the handler never does *)

(** X4: no history row is written unless the answer is 200. *)
Theorem no_audit_unless_200 (req : Request) (params : Params.t) (w : World)
    (r : Response) (w' : World) :
  answers req params w r w' ->
  status r <> 200 ->
  history w' = history w.
Proof.
  intros H Hne. apply answers_path in H. destruct H; try reflexivity.
  contradiction Hne. reflexivity.
Qed.

Lemma no_audit_unless_200_witness :
  exists r w',
    answers (Scenario.put [("category", JStr "AI")]) Scenario.params Scenario.world r w'
    /\ status r = 500
    /\ history w' = [].
Proof.
  eexists _, _. split; [unfold answers; vm_compute; reflexivity|]. split; [reflexivity|].
  eapply (no_audit_unless_200 (Scenario.put [("category", JStr "AI")]) Scenario.params
            Scenario.world);
    [unfold answers; vm_compute; reflexivity|discriminate].
Defined.

Lemma updated_theses (n : Z) (b : ParsedBody.t) (author : option User.t) (row : ThesisRow.t)
    (w : World) :
  theses (updated n b author row w)
  = <[n := prisma.thesis.apply (update_data b author row) row (now w)]> (theses w).
Proof. reflexivity. Qed.

(** What an update of the stored row [n] leaves as it was. *)
Lemma update_frame (w : World) (n : Z) (row new : ThesisRow.t) :
  theses w !! n = Some row ->
  ThesisRow.created_at new = ThesisRow.created_at row ->
  dom (<[n := new]> (theses w)) = dom (theses w)
  /\ (forall m, m <> n -> <[n := new]> (theses w) !! m = theses w !! m)
  /\ (forall m old new',
        theses w !! m = Some old -> <[n := new]> (theses w) !! m = Some new' ->
        ThesisRow.created_at new' = ThesisRow.created_at old).
Proof.
  intros Hrow Hcreated. split; [|split].
  - apply dom_insert_lookup_L. eauto.
  - intros m Hm. apply lookup_insert_ne. congruence.
  - intros m old new' Hold Hnew. destruct (decide (m = n)) as [->|Hm].
    + rewrite lookup_insert_eq in Hnew. congruence.
    + rewrite lookup_insert_ne in Hnew by congruence. congruence.
Qed.

(** X5: whatever the request, the handler creates and deletes no thesis
    (the keys of the table stay the same), leaves every row other than the
    one the path id names as it was, never changes a [created_at], and
    never changes the users. *)
Theorem only_the_addressed_row (req : Request) (params : Params.t) (w : World)
    (r : Response) (w' : World) :
  answers req params w r w' ->
  dom (theses w') = dom (theses w)
  /\ users w' = users w
  /\ (forall m, ~ path_id params m -> theses w' !! m = theses w !! m)
  /\ (forall m old new,
        theses w !! m = Some old -> theses w' !! m = Some new ->
        ThesisRow.created_at new = ThesisRow.created_at old).
Proof.
  intros H. apply answers_path in H. unfold path_id.
  assert (forall w0, theses w0 = theses w -> users w0 = users w ->
            dom (theses w0) = dom (theses w) /\ users w0 = users w
            /\ (forall m, BigInt (Params.id params) <> inr m -> theses w0 !! m = theses w !! m)
            /\ (forall m old new, theses w !! m = Some old -> theses w0 !! m = Some new ->
                  ThesisRow.created_at new = ThesisRow.created_at old)) as Hsame.
  { intros w0 Ht Hu. rewrite Ht. repeat split; [exact Hu|]. congruence. }
  assert (forall n b author row w0,
            BigInt (Params.id params) = inr n -> theses w !! n = Some row ->
            theses w0 = theses (updated n b author row w) -> users w0 = users w ->
            dom (theses w0) = dom (theses w) /\ users w0 = users w
            /\ (forall m, BigInt (Params.id params) <> inr m -> theses w0 !! m = theses w !! m)
            /\ (forall m old new, theses w !! m = Some old -> theses w0 !! m = Some new ->
                  ThesisRow.created_at new = ThesisRow.created_at old)) as Hupd.
  { intros n b author row w0 Hid Hrow Ht Hu. rewrite Ht, updated_theses.
    destruct (update_frame w n row
                (prisma.thesis.apply (update_data b author row) row (now w)) Hrow eq_refl)
      as (Hdom & Hother & Hcreated).
    split; [exact Hdom|]. split; [exact Hu|]. split; [|exact Hcreated].
    intros m Hm. apply Hother. congruence. }
  destruct H; try (apply Hsame; reflexivity); eapply Hupd; eauto.
Qed.

Lemma only_the_addressed_row_witness :
  exists r w',
    answers (Scenario.put [("author_name", JStr "admin"); ("title", JStr "Y")])
      Scenario.params Scenario.world r w'
    /\ dom (theses w') = dom (theses Scenario.world)
    /\ users w' = users Scenario.world
    /\ (forall m, ~ path_id Scenario.params m -> theses w' !! m = theses Scenario.world !! m)
    /\ (forall m old new,
          theses Scenario.world !! m = Some old -> theses w' !! m = Some new ->
          ThesisRow.created_at new = ThesisRow.created_at old).
Proof.
  eexists _, _. split; [unfold answers; vm_compute; reflexivity|].
  eapply (only_the_addressed_row
            (Scenario.put [("author_name", JStr "admin"); ("title", JStr "Y")])
            Scenario.params Scenario.world).
  unfold answers. vm_compute. reflexivity.
Defined.

(** ** When the handler succeeds and when it writes *)

Lemma passes_validation_inv (req : Request) (payload : json) (b b' : ParsedBody.t) :
  json_body req = inr payload ->
  parse updateThesisSchema payload = inr b ->
  passes_validation req b' -> b' = b.
Proof.
  intros Hjson Hparse (payload' & Hj & Hp). congruence.
Qed.

(** X6: the answer is 200 exactly when the body passes validation and
    names an existing user, the id is the key of a stored thesis, the
    stored [created_at] and the clock are valid time values, and the
    session has a user.  A body without [author_name] never gets a 200. *)
Theorem answer_200_iff_accepted (req : Request) (params : Params.t) (w : World)
    (r : Response) (w' : World) :
  answers req params w r w' ->
  status r = 200 <-> accepted req params w.
Proof.
  intros H. split.
  - intros H200.
    destruct (PUT_200 _ _ _ _ _ H H200)
      as (payload & b & n & row & name & a & created_at & updated_at & currentUser
          & Hjson & Hparse & Hid & Hrow & Hname & Ha & Hc & Hu & Hs & _).
    exists b, n, row, name, a, currentUser.
    split; [exists payload; auto|]. split; [eapply parsed_supplies; eauto|].
    repeat split; eauto using toISOString_returns.
  - intros (b & n & row & name & a & currentUser
            & (payload & Hjson & Hparse) & Hname & Ha & Hid & Hrow & Hc & Hu & Hs).
    apply (parsed_supplies _ _ _ _ Hjson Hparse) in Hname.
    apply toISOString_valid in Hc as [created_at Hc], Hu as [updated_at Hu].
    unfold answers in H.
    rewrite (PUT_success _ _ _ _ _ Hjson Hparse _ Hid _ Hrow _ _ Hname Ha _ Hc _ Hu _ Hs) in H.
    injection H as <- _. reflexivity.
Qed.

Lemma answer_200_iff_accepted_witness :
  exists r w',
    answers (Scenario.put [("author_name", JStr "alice")]) Scenario.params Scenario.world r w'
    /\ (status r = 200 <-> accepted (Scenario.put [("author_name", JStr "alice")])
                             Scenario.params Scenario.world).
Proof.
  eexists _, _. split; [unfold answers; vm_compute; reflexivity|].
  eapply (answer_200_iff_accepted (Scenario.put [("author_name", JStr "alice")])
            Scenario.params Scenario.world).
  unfold answers. vm_compute. reflexivity.
Defined.

(** The client calls are those of [w] and then [cs]. *)
Lemma updated_calls (n : Z) (b : ParsedBody.t) (author : option User.t) (row : ThesisRow.t)
    (w : World) :
  exists cs, calls (updated n b author row w) = calls w ++ cs
             /\ In (thesis_update n (update_data b author row)) cs
             /\ forall entry, ~ In (history_create entry) cs.
Proof.
  eexists. split; [reflexivity|]. split.
  - apply in_or_app. right. apply in_or_app. right. left. reflexivity.
  - intros entry Hin. destruct author; simpl in Hin;
      repeat (destruct Hin as [Hin|Hin]; [discriminate|]); exact Hin.
Qed.

(** X7: the thesis row is updated exactly when the body passes
    validation, the id is the key of a stored thesis and the author, if
    one is named, exists, whatever the answer turns out to be; when it is
    updated the stored row is the merge, and otherwise the thesis table is
    as it was. *)
Theorem update_iff_reached (req : Request) (params : Params.t) (w : World)
    (r : Response) (w' : World) :
  answers req params w r w' ->
  exists cs,
    calls w' = calls w ++ cs
    /\ ((exists n data, In (thesis_update n data) cs) <-> reaches_update req params w)
    /\ (~ reaches_update req params w -> theses w' = theses w)
    /\ (forall b n row author,
          passes_validation req b -> path_id params n -> theses w !! n = Some row ->
          resolved (users w) b author ->
          theses w' = <[n := prisma.thesis.apply (update_data b author row) row (now w)]>
                        (theses w)).
Proof.
  intros H. pose proof H as Hp. apply answers_path in Hp.
  assert (forall b n row author,
            passes_validation req b -> path_id params n -> theses w !! n = Some row ->
            resolved (users w) b author ->
            theses w' = <[n := prisma.thesis.apply (update_data b author row) row (now w)]>
                          (theses w)) as Hstored.
  { intros b n row author (payload & Hjson & Hparse) Hid Hrow Hres.
    destruct (PUT_stores _ _ _ _ _ _ _ _ Hjson Hparse Hid Hrow Hres) as (r0 & w0 & H0 & Ht & _).
    unfold answers in H. rewrite H0 in H. injection H as _ <-. exact Ht. }
  assert (forall cs, calls w' = calls w ++ cs ->
            (forall n data, ~ In (thesis_update n data) cs) ->
            theses w' = theses w ->
            ~ reaches_update req params w ->
            exists cs,
              calls w' = calls w ++ cs
              /\ ((exists n data, In (thesis_update n data) cs) <-> reaches_update req params w)
              /\ (~ reaches_update req params w -> theses w' = theses w)
              /\ (forall b n row author,
                    passes_validation req b -> path_id params n -> theses w !! n = Some row ->
                    resolved (users w) b author ->
                    theses w' = <[n := prisma.thesis.apply (update_data b author row) row (now w)]>
                                  (theses w))) as Hno.
  { intros cs Hcs Hnone Ht Hnot. exists cs. split; [exact Hcs|]. split; [|split; auto].
    split; [intros (n & data & Hin); destruct (Hnone _ _ Hin)|intros Hr; contradiction]. }
  assert (forall cs n data, calls w' = calls w ++ cs ->
            In (thesis_update n data) cs ->
            reaches_update req params w ->
            exists cs,
              calls w' = calls w ++ cs
              /\ ((exists n data, In (thesis_update n data) cs) <-> reaches_update req params w)
              /\ (~ reaches_update req params w -> theses w' = theses w)
              /\ (forall b n row author,
                    passes_validation req b -> path_id params n -> theses w !! n = Some row ->
                    resolved (users w) b author ->
                    theses w' = <[n := prisma.thesis.apply (update_data b author row) row (now w)]>
                                  (theses w))) as Hyes.
  { intros cs n data Hcs Hin Hr. exists cs. split; [exact Hcs|]. split; [|split; auto].
    - split; [intros _; exact Hr|intros _; eauto].
    - intros Hnot. contradiction. }
  clear H Hstored.
  destruct Hp
    as [e Hj
       |payload Hj Hfalsy
       |payload issues Hj Htruthy Hschema
       |payload b e Hj Hparse Hbad
       |payload b n Hj Hparse Hn Hnone
       |payload b n row name Hj Hparse Hn Hrow Hname Hghost
       |payload b n row Hj Hparse Hn Hrow Hname
       |payload b n row name a Hj Hparse Hn Hrow Hname Ha Hdate
       |payload b n row name a Hj Hparse Hn Hrow Hname Ha Hc Hu Hs
       |payload b n row name a created_at updated_at currentUser
          Hj Hparse Hn Hrow Hname Ha Hc Hu Hs].
  - apply (Hno []); [symmetry; apply app_nil_r|intros ? ? []|reflexivity|].
    intros (b & n & row & author & (payload & Hj' & _) & _). congruence.
  - apply (Hno []); [symmetry; apply app_nil_r|intros ? ? []|reflexivity|].
    intros (b & n & row & author & (payload' & Hj' & Hp) & _).
    assert (payload' = payload) as -> by congruence.
    apply parse_truthy in Hp. congruence.
  - apply (Hno []); [symmetry; apply app_nil_r|intros ? ? []|reflexivity|].
    intros (b & n & row & author & (payload' & Hj' & Hp) & _).
    assert (payload' = payload) as -> by congruence.
    apply parse_inr in Hp. congruence.
  - apply (Hno []); [symmetry; apply app_nil_r|intros ? ? []|reflexivity|].
    intros (b' & n & row & author & _ & Hid & _). unfold path_id in Hid. congruence.
  - apply (Hno [thesis_findUnique n]); [reflexivity| |reflexivity|].
    + intros m data [Hin|[]]. discriminate.
    + intros (b' & n' & row & author & _ & Hid & Hrow & _). unfold path_id in Hid. congruence.
  - apply (Hno [thesis_findUnique n; user_findUnique name]); [reflexivity| |reflexivity|].
    + intros m data [Hin|[Hin|[]]]; discriminate.
    + intros (b' & n' & row' & author & Hv & _ & _ & Hres).
      rewrite (passes_validation_inv _ _ _ _ Hj Hparse Hv) in Hres. unfold resolved in Hres.
      rewrite Hname in Hres. destruct Hres as [Hu [u Hsome]]. congruence.
  - destruct (updated_calls n b None row w) as (cs & Hcs & Hin & _).
    apply (Hyes cs _ _ Hcs Hin). exists b, n, row, None.
    split; [exists payload; auto|]. split; [assumption|]. split; [assumption|].
    unfold resolved. rewrite Hname. reflexivity.
  - destruct (updated_calls n b (Some a) row w) as (cs & Hcs & Hin & _).
    apply (Hyes cs _ _ Hcs Hin). exists b, n, row, (Some a).
    split; [exists payload; auto|]. split; [assumption|]. split; [assumption|].
    unfold resolved. rewrite Hname. eauto.
  - destruct (updated_calls n b (Some a) row w) as (cs & Hcs & Hin & _).
    apply (Hyes cs _ _ Hcs Hin). exists b, n, row, (Some a).
    split; [exists payload; auto|]. split; [assumption|]. split; [assumption|].
    unfold resolved. rewrite Hname. eauto.
  - destruct (updated_calls n b (Some a) row w) as (cs & Hcs & Hin & _).
    apply (Hyes (cs ++ [history_create
                          (audit (ThesisRow.title
                                    (prisma.thesis.apply (update_data b (Some a) row) row (now w)))
                             currentUser)]) n (update_data b (Some a) row)).
    + unfold audited. cbn [calls]. rewrite Hcs, app_assoc. reflexivity.
    + apply in_or_app. left. exact Hin.
    + exists b, n, row, (Some a).
      split; [exists payload; auto|]. split; [assumption|]. split; [assumption|].
      unfold resolved. rewrite Hname. eauto.
Qed.

Lemma update_iff_reached_witness :
  exists r w' cs,
    answers (Scenario.put [("category", JStr "AI")]) Scenario.params Scenario.world r w'
    /\ status r = 500
    /\ calls w' = calls Scenario.world ++ cs
    /\ ((exists n data, In (thesis_update n data) cs)
        <-> reaches_update (Scenario.put [("category", JStr "AI")]) Scenario.params
              Scenario.world).
Proof.
  destruct (update_iff_reached
              (Scenario.put [("category", JStr "AI")]) Scenario.params Scenario.world
              (caught (TypeError "Cannot read properties of undefined (reading 'username')"))
              (updated 7 (ParsedBody.mk None None (Some "AI") None None None) None
                 Scenario.thesis_X Scenario.world))
    as (cs & Hcs & Hiff & _).
  - unfold answers. vm_compute. reflexivity.
  - eexists _, _, cs. split; [unfold answers; vm_compute; reflexivity|].
    split; [reflexivity|]. split; [exact Hcs|exact Hiff].
Defined.

(** ** The 200 answer and the store *)

(** X8: in a 200 answer the [thesis] object shows the row as it is stored
    after the call (title, category, keywords, abstract and status), and
    its [author_name] is the name the body gave, which is the name of the
    user whose id is stored as [author_id]. *)
Theorem answer_200_shows_stored_row (req : Request) (params : Params.t) (w : World)
    (r : Response) (w' : World) :
  answers req params w r w' ->
  status r = 200 ->
  exists n row' a top fields,
    path_id params n
    /\ theses w' !! n = Some row'
    /\ body r = JObj top
    /\ obj_get "thesis" top = Some (JObj fields)
    /\ obj_get "title" fields = Some (JStr (ThesisRow.title row'))
    /\ obj_get "category" fields = Some (JStr (ThesisRow.category row'))
    /\ obj_get "keywords" fields = Some (JArr (JStr <$> ThesisRow.keywords row'))
    /\ obj_get "abstract" fields = Some (JStr (ThesisRow.abstract row'))
    /\ obj_get "status" fields = Some (JStr (ThesisRow.status row'))
    /\ obj_get "author_name" fields = Some (JStr (User.username a))
    /\ supplies_author_name req (User.username a)
    /\ In a (users w')
    /\ ThesisRow.author_id row' = User.id a.
Proof.
  intros H H200.
  destruct (PUT_200 _ _ _ _ _ H H200)
    as (payload & b & n & row & name & a & created_at & updated_at & currentUser
        & Hjson & Hparse & Hid & Hrow & Hname & Ha & Hc & Hu & Hs & -> & ->).
  pose proof (user_by_username_Some _ _ _ Ha) as [Hin Heq].
  eexists n, _, a, _, _. split; [exact Hid|].
  split; [apply lookup_insert_eq|].
  do 8 (split; [reflexivity|]).
  split; [rewrite Heq; eapply parsed_supplies; eauto|].
  split; [exact Hin|reflexivity].
Qed.

Lemma answer_200_shows_stored_row_witness :
  exists r w',
    answers (Scenario.put [("author_name", JStr "admin"); ("title", JStr "Y")])
      Scenario.params Scenario.world r w'
    /\ status r = 200
    /\ exists n row' a top fields,
         path_id Scenario.params n
         /\ theses w' !! n = Some row'
         /\ body r = JObj top
         /\ obj_get "thesis" top = Some (JObj fields)
         /\ obj_get "title" fields = Some (JStr (ThesisRow.title row'))
         /\ obj_get "category" fields = Some (JStr (ThesisRow.category row'))
         /\ obj_get "keywords" fields = Some (JArr (JStr <$> ThesisRow.keywords row'))
         /\ obj_get "abstract" fields = Some (JStr (ThesisRow.abstract row'))
         /\ obj_get "status" fields = Some (JStr (ThesisRow.status row'))
         /\ obj_get "author_name" fields = Some (JStr (User.username a))
         /\ supplies_author_name
              (Scenario.put [("author_name", JStr "admin"); ("title", JStr "Y")])
              (User.username a)
         /\ In a (users w')
         /\ ThesisRow.author_id row' = User.id a.
Proof.
  eexists _, _. split; [unfold answers; vm_compute; reflexivity|]. split; [reflexivity|].
  apply (answer_200_shows_stored_row
           (Scenario.put [("author_name", JStr "admin"); ("title", JStr "Y")])
           Scenario.params Scenario.world);
    [unfold answers; vm_compute; reflexivity|reflexivity].
Defined.

(** X9: when the session has no user and everything else is in order
    (valid body that names an existing user, stored thesis, valid time
    values), the row is updated, no history row is written, and the answer
    is 500: the update is not undone. *)
Theorem no_session_leaves_update_unaudited (req : Request) (params : Params.t) (w : World)
    (props : list (string * json)) (b : ParsedBody.t) (n : Z) (row : ThesisRow.t)
    (name : string) (a : User.t) :
  json_body req = inr (JObj props) ->
  parse updateThesisSchema (JObj props) = inr b ->
  obj_get "author_name" props = Some (JStr name) ->
  prisma.user_by_username (users w) name = Some a ->
  path_id params n ->
  theses w !! n = Some row ->
  valid_time (ThesisRow.created_at row) ->
  valid_time (now w) ->
  session_user req = None ->
  exists r w',
    answers req params w r w'
    /\ status r = 500
    /\ theses w' = <[n := prisma.thesis.apply (update_data b (Some a) row) row (now w)]>
                     (theses w)
    /\ history w' = history w.
Proof.
  intros Hjson Hparse Hget Ha Hid Hrow Hc Hu Hs.
  assert (ParsedBody.author_name b = Some name) as Hname.
  { eapply parsed_supplies; eauto. exists props. auto. }
  apply toISOString_valid in Hc as [created_at Hc], Hu as [updated_at Hu].
  eexists _, _. split.
  - eapply PUT_no_session; eauto.
  - repeat split.
Qed.

Lemma no_session_leaves_update_unaudited_witness :
  exists r w' row',
    answers (mkRequest (inr (JObj [("author_name", JStr "admin"); ("title", JStr "Y")])) None)
      Scenario.params Scenario.world r w'
    /\ status r = 500
    /\ theses w' = <[7 := row']> (theses Scenario.world)
    /\ ThesisRow.title row' = "Y"
    /\ history w' = history Scenario.world.
Proof.
  destruct (no_session_leaves_update_unaudited
              (mkRequest (inr (JObj [("author_name", JStr "admin"); ("title", JStr "Y")])) None)
              Scenario.params Scenario.world
              [("author_name", JStr "admin"); ("title", JStr "Y")]
              (ParsedBody.mk (Some "Y") (Some "admin") None None None None)
              7 Scenario.thesis_X "admin" Scenario.admin)
    as (r & w' & Hr & H500 & Ht & Hh); try reflexivity; try (unfold valid_time; simpl; lia).
  eexists r, w', _. split; [exact Hr|]. split; [exact H500|]. split; [exact Ht|].
  split; [reflexivity|exact Hh].
Defined.

(** ** What the schema looks at and what it lets through *)

Lemma schema_agree (p : list Zod.PathSeg) (props props' : list (string * json)) :
  (forall k, In k shape_keys -> obj_get k props = obj_get k props') ->
  updateThesisSchema p (Some (JObj props)) = updateThesisSchema p (Some (JObj props')).
Proof.
  intros H. unfold updateThesisSchema, Zod.field.
  rewrite (H "title"), (H "author_name"), (H "category"), (H "keywords"), (H "abstract"),
    (H "status"); try reflexivity; unfold shape_keys; simpl; tauto.
Qed.

(** X10: keys outside the schema are ignored: two object bodies that agree
    on title, author_name, category, keywords, abstract and status get the
    same answer and leave the same world, whatever else they carry. *)
Theorem unknown_keys_are_ignored (props props' : list (string * json))
    (session : option User.t) (params : Params.t) (w : World) :
  (forall k, In k shape_keys -> obj_get k props = obj_get k props') ->
  PUT (mkRequest (inr (JObj props)) session) params w
  = PUT (mkRequest (inr (JObj props')) session) params w.
Proof.
  intros H.
  assert (parse updateThesisSchema (JObj props) = parse updateThesisSchema (JObj props')) as Hp.
  { unfold parse. rewrite (schema_agree [] _ _ H). reflexivity. }
  run. rewrite Hp. reflexivity.
Qed.

Lemma unknown_keys_are_ignored_witness :
  PUT (Scenario.put [("thesis_id", JStr "99"); ("category", JStr "AI"); ("created_at", JNull)])
    Scenario.params Scenario.world
  = PUT (Scenario.put [("category", JStr "AI")]) Scenario.params Scenario.world.
Proof.
  apply (unknown_keys_are_ignored
           [("thesis_id", JStr "99"); ("category", JStr "AI"); ("created_at", JNull)]
           [("category", JStr "AI")]).
  intros k Hk. unfold shape_keys in Hk. simpl in Hk.
  destruct Hk as [<-|[<-|[<-|[<-|[<-|[<-|[]]]]]]]; reflexivity.
Defined.

Lemma array_items_strings (p : list Zod.PathSeg) (l : list string) :
  forall i, Zod.array_items Zod.string p i (JStr <$> l) = inr l.
Proof.
  induction l as [|s l IH]; intros i; [reflexivity|].
  cbn [fmap list_fmap Zod.array_items]. change (list_fmap _ _ JStr l) with (JStr <$> l).
  rewrite IH. reflexivity.
Qed.

Lemma existsb_statuses (s : string) :
  In s statuses -> existsb (String.eqb s) ["Pending"; "Approved"; "Rejected"] = true.
Proof.
  intros H. apply existsb_exists. exists s. split; [exact H|apply String.eqb_refl].
Qed.

(** X11: the schema loses nothing: the object that carries the fields of
    a well-formed body parses to that body. *)
Theorem parse_encode (b : ParsedBody.t) :
  well_formed b ->
  parse updateThesisSchema (JObj (encode b)) = inr b.
Proof.
  intros (Htitle & Hname & Hstatus). apply parse_inr.
  destruct b as [title author_name category keywords abstract status]. simpl in *.
  assert (forall p (o : option string),
            o <> Some "" ->
            Zod.optional (Zod.string_min 1) p (JStr <$> o) = inr o) as Hmin.
  { intros p [[|c s]|] Ho; try reflexivity; [congruence|].
    unfold Zod.optional, Zod.string_min, Zod.string, fmap, option_fmap, option_map.
    destruct (Z.ltb_spec (Z.of_nat (String.length (String c s))) 1) as [Hlt|_];
      [simpl in Hlt; lia|reflexivity]. }
  assert (forall p (o : option string), Zod.optional Zod.string p (JStr <$> o) = inr o) as Hstr.
  { intros p [s|]; reflexivity. }
  assert (forall p (o : option (list string)),
            Zod.optional (Zod.array Zod.string) p ((fun l => JArr (JStr <$> l)) <$> o) = inr o)
    as Harr.
  { intros p [l|]; [|reflexivity].
    change (Zod.optional (Zod.array Zod.string) p (Some (JArr (JStr <$> l))) = inr (Some l)).
    unfold Zod.optional, Zod.array. rewrite array_items_strings. reflexivity. }
  assert (forall p,
            Zod.optional (Zod.enum ["Pending"; "Approved"; "Rejected"]) p (JStr <$> status)
            = inr status) as Henum.
  { intros p. destruct status as [s|]; [|reflexivity].
    unfold Zod.optional, Zod.enum, fmap, option_fmap, option_map.
    rewrite (existsb_statuses s (Hstatus s eq_refl)). reflexivity. }
  unfold updateThesisSchema, Zod.field.
  replace (obj_get "title" _) with (JStr <$> title)
    by (unfold encode; destruct title, author_name, category, keywords, abstract, status;
        reflexivity).
  replace (obj_get "author_name" _) with (JStr <$> author_name)
    by (unfold encode; destruct title, author_name, category, keywords, abstract, status;
        reflexivity).
  replace (obj_get "category" _) with (JStr <$> category)
    by (unfold encode; destruct title, author_name, category, keywords, abstract, status;
        reflexivity).
  replace (obj_get "keywords" _) with ((fun l => JArr (JStr <$> l)) <$> keywords)
    by (unfold encode; destruct title, author_name, category, keywords, abstract, status;
        reflexivity).
  replace (obj_get "abstract" _) with (JStr <$> abstract)
    by (unfold encode; destruct title, author_name, category, keywords, abstract, status;
        reflexivity).
  replace (obj_get "status" _) with (JStr <$> status)
    by (unfold encode; destruct title, author_name, category, keywords, abstract, status;
        reflexivity).
  rewrite !Hmin, !Hstr, Harr, Henum by assumption. reflexivity.
Qed.

Lemma parse_encode_witness :
  parse updateThesisSchema
    (JObj [("title", JStr "Y"); ("keywords", JArr [JStr "logic"; JStr "proof"]);
           ("status", JStr "Approved")])
  = inr (ParsedBody.mk (Some "Y") None None (Some ["logic"; "proof"]) None (Some "Approved")).
Proof.
  apply (parse_encode
           (ParsedBody.mk (Some "Y") None None (Some ["logic"; "proof"]) None (Some "Approved"))).
  repeat split; try discriminate.
  intros s H. injection H as <-. right. left. reflexivity.
Defined.

(** A validated body is well formed. *)
Lemma parsed_well_formed (payload : json) (b : ParsedBody.t) :
  parse updateThesisSchema payload = inr b -> well_formed b.
Proof.
  intros H. apply parse_inr, schema_inr in H
    as (props & _ & Htitle & Hauthor & _ & _ & _ & Hstatus).
  unfold Zod.field in *.
  apply optional_string_min_inr in Htitle, Hauthor. apply optional_enum_inr in Hstatus.
  split; [|split].
  - intros Heq. rewrite Heq in Htitle. destruct Htitle as [_ Hne]. congruence.
  - intros Heq. rewrite Heq in Hauthor. destruct Hauthor as [_ Hne]. congruence.
  - intros s Heq. rewrite Heq in Hstatus. apply Hstatus.
Qed.

(** ** Invariants the handler keeps *)

(** What holds of every row and of the row an update stores holds of
    every row afterwards. *)
Lemma every_row_after (P : ThesisRow.t -> Prop) (req : Request) (params : Params.t)
    (w : World) (r : Response) (w' : World) :
  PUT_path req params w r w' ->
  every_row P w ->
  (forall payload b n row author,
     json_body req = inr payload -> parse updateThesisSchema payload = inr b ->
     theses w !! n = Some row -> resolved (users w) b author ->
     P (prisma.thesis.apply (update_data b author row) row (now w))) ->
  every_row P w'.
Proof.
  intros Hp Hall Hnew.
  assert (forall payload b n row author,
            json_body req = inr payload -> parse updateThesisSchema payload = inr b ->
            theses w !! n = Some row -> resolved (users w) b author ->
            every_row P (updated n b author row w)) as Hupd.
  { intros payload b n row author Hj Hparse Hrow Hres m r0. rewrite updated_theses.
    destruct (decide (m = n)) as [->|Hm].
    - rewrite lookup_insert_eq. intros H. injection H as <-. eapply Hnew; eauto.
    - rewrite lookup_insert_ne by congruence. apply Hall. }
  destruct Hp
    as [e Hj
       |payload Hj Hfalsy
       |payload issues Hj Htruthy Hschema
       |payload b e Hj Hparse Hbad
       |payload b n Hj Hparse Hn Hnone
       |payload b n row name Hj Hparse Hn Hrow Hname Hghost
       |payload b n row Hj Hparse Hn Hrow Hname
       |payload b n row name a Hj Hparse Hn Hrow Hname Ha Hdate
       |payload b n row name a Hj Hparse Hn Hrow Hname Ha Hc Hu Hs
       |payload b n row name a created_at updated_at currentUser
          Hj Hparse Hn Hrow Hname Ha Hc Hu Hs];
    try exact Hall;
    try (intros m r0; apply (Hupd payload b n row _ Hj Hparse Hrow); unfold resolved;
         rewrite Hname; eauto).
Qed.

(** X12: the handler keeps the thesis table well formed: if every stored
    row has a non-empty title and a status of the enumeration before the
    call, so has every stored row after it, whatever the request. *)
Theorem rows_stay_well_formed (req : Request) (params : Params.t) (w : World)
    (r : Response) (w' : World) :
  answers req params w r w' ->
  every_row row_well_formed w ->
  every_row row_well_formed w'.
Proof.
  intros H Hall. apply answers_path in H. apply (every_row_after _ _ _ _ _ _ H Hall).
  intros payload b n row author _ Hparse Hrow _.
  destruct (Hall _ _ Hrow) as [Htitle Hstatus].
  destruct (parsed_well_formed _ _ Hparse) as (Hbt & _ & Hbs).
  unfold row_well_formed, update_data, nullish. simpl. split.
  - destruct (ParsedBody.title b) as [s|]; simpl; [congruence|exact Htitle].
  - destruct (ParsedBody.status b) as [s|]; simpl; [apply Hbs; reflexivity|exact Hstatus].
Qed.

Lemma scenario_rows (P : ThesisRow.t -> Prop) :
  P Scenario.thesis_X -> every_row P Scenario.world.
Proof.
  intros HP m r Hr. unfold Scenario.world in Hr. cbn [theses] in Hr.
  apply lookup_singleton_Some in Hr as [_ <-]. exact HP.
Qed.

Lemma rows_stay_well_formed_witness :
  exists r w',
    answers (Scenario.put [("status", JStr "Approved")]) Scenario.params Scenario.world r w'
    /\ every_row row_well_formed w'.
Proof.
  eexists _, _. split; [unfold answers; vm_compute; reflexivity|].
  eapply (rows_stay_well_formed (Scenario.put [("status", JStr "Approved")]) Scenario.params
            Scenario.world).
  - unfold answers. vm_compute. reflexivity.
  - apply scenario_rows. split; [discriminate|left; reflexivity].
Defined.

(** X13: the handler keeps the author reference valid: if the author of
    every stored row is one of the users before the call, it is so after
    the call, whatever the request. *)
Theorem authors_stay_known (req : Request) (params : Params.t) (w : World)
    (r : Response) (w' : World) :
  answers req params w r w' ->
  every_row (author_exists (users w)) w ->
  every_row (author_exists (users w')) w'.
Proof.
  intros H Hall. apply answers_path in H.
  assert (users w' = users w) as ->.
  { destruct H; reflexivity. }
  apply (every_row_after _ _ _ _ _ _ H Hall).
  intros payload b n row author _ Hparse Hrow Hres.
  unfold author_exists, update_data, nullish. simpl.
  unfold resolved in Hres. destruct (ParsedBody.author_name b) as [name|].
  - destruct Hres as [Hu [u ->]]. apply user_by_username_Some in Hu as [Hin _].
    exists u. split; [exact Hin|reflexivity].
  - subst author. simpl. exact (Hall _ _ Hrow).
Qed.

Lemma authors_stay_known_witness :
  exists r w',
    answers (Scenario.put [("author_name", JStr "admin")]) Scenario.params Scenario.world r w'
    /\ every_row (author_exists (users w')) w'.
Proof.
  eexists _, _. split; [unfold answers; vm_compute; reflexivity|].
  eapply (authors_stay_known (Scenario.put [("author_name", JStr "admin")]) Scenario.params
            Scenario.world).
  - unfold answers. vm_compute. reflexivity.
  - apply scenario_rows. exists Scenario.alice. split; [left; reflexivity|reflexivity].
Defined.

(** ** Keywords *)

(** X14: a keyword that is not a string is rejected with its position:
    when [keywords] is an array whose element [i] is not a string, the
    answer is 400, nothing is read or written, and the errors include an
    [invalid_type] issue at the path [keywords, i]. *)
Theorem keyword_reported_at_its_index (req : Request) (params : Params.t) (w : World)
    (props : list (string * json)) (items : list json) (i : nat) (v : json) :
  json_body req = inr (JObj props) ->
  obj_get "keywords" props = Some (JArr items) ->
  items !! i = Some v ->
  Zod.getParsedType (Some v) <> Zod.t_string ->
  exists issues,
    answers req params w
      (NextResponse.json
         (JObj [message "Validation failed"; ("errors", JArr (ZodJson.issue <$> issues))])
         (Some 400)) w
    /\ In (Zod.issue (Zod.invalid_type "string" (Zod.getParsedType (Some v)))
             [Zod.Key "keywords"; Zod.Index i]) issues.
Proof.
  intros Hjson Hget Hi Hty.
  assert (In (Zod.issue (Zod.invalid_type "string" (Zod.getParsedType (Some v)))
                [Zod.Key "keywords"; Zod.Index i])
             (issues_of (updateThesisSchema [] (Some (JObj props))))) as Hin.
  { rewrite schema_object_issues.
    eapply in_shape_issues; [unfold shape_issues; do 3 right; left; reflexivity|].
    unfold Zod.field, Zod.optional, Zod.array. rewrite Hget, issues_of_ap.
    apply (array_items_reports ([] ++ [Zod.Key "keywords"]) items 0 i v Hi Hty). }
  destruct (updateThesisSchema [] (Some (JObj props))) as [issues|b] eqn:Hschema;
    [|destruct Hin].
  exists issues. split; [|exact Hin].
  eapply PUT_invalid_body; eauto.
Qed.

Lemma keyword_reported_at_its_index_witness :
  exists issues,
    answers (Scenario.put [("keywords", JArr [JStr "logic"; JNull])]) Scenario.params
      Scenario.world
      (NextResponse.json
         (JObj [message "Validation failed"; ("errors", JArr (ZodJson.issue <$> issues))])
         (Some 400)) Scenario.world
    /\ In (Zod.issue (Zod.invalid_type "string" Zod.t_null) [Zod.Key "keywords"; Zod.Index 1])
          issues.
Proof.
  apply (keyword_reported_at_its_index
           (Scenario.put [("keywords", JArr [JStr "logic"; JNull])]) Scenario.params
           Scenario.world [("keywords", JArr [JStr "logic"; JNull])]
           [JStr "logic"; JNull] 1 JNull); try reflexivity.
  discriminate.
Defined.

(** ** A successful call, repeated *)

(** X15: the history is not idempotent: when a call is answered 200, the
    same request put again at any valid clock reading is answered 200
    again, and the history then ends with two equal rows, one for each
    call. *)
Theorem success_twice_audits_twice (req : Request) (params : Params.t) (w : World)
    (r1 : Response) (w1 : World) (t2 : Date) :
  answers req params w r1 w1 ->
  status r1 = 200 ->
  valid_time t2 ->
  exists r2 w2 entry,
    answers req params (at_time t2 w1) r2 w2
    /\ status r2 = 200
    /\ history w2 = history w ++ [entry; entry].
Proof.
  intros H H200 Ht2.
  destruct (PUT_200 _ _ _ _ _ H H200)
    as (payload & b & n & row & name & a & created_at & updated_at & currentUser
        & Hjson & Hparse & Hid & Hrow & Hname & Ha & Hc & Hu & Hs & _ & ->).
  apply toISOString_valid in Ht2 as [stamp Hstamp].
  set (row1 := prisma.thesis.apply (update_data b (Some a) row) row (now w)).
  set (w1 := audited (audit (ThesisRow.title row1) currentUser) (updated n b (Some a) row w)).
  assert (theses (at_time t2 w1) !! n = Some row1) as Hrow1 by apply lookup_insert_eq.
  eexists _, _, (audit (ThesisRow.title row1) currentUser). split.
  - unfold answers.
    exact (PUT_success req params (at_time t2 w1) payload b Hjson Hparse n Hid row1 Hrow1
             name a Hname Ha created_at Hc stamp Hstamp currentUser Hs).
  - split; [reflexivity|].
    pose proof (apply_update_data_twice b (Some a) row (now w) t2) as Htwice.
    cbv zeta in Htwice. fold row1 in Htwice.
    cbn [history audited at_time updated now]. rewrite Htwice.
    unfold w1. cbn [history audited updated stamped ThesisRow.title].
    rewrite <- app_assoc. reflexivity.
Qed.

Lemma success_twice_audits_twice_witness :
  exists r1 w1,
    answers (Scenario.put [("author_name", JStr "alice"); ("category", JStr "AI")])
      Scenario.params Scenario.world r1 w1
    /\ status r1 = 200
    /\ exists r2 w2 entry,
         answers (Scenario.put [("author_name", JStr "alice"); ("category", JStr "AI")])
           Scenario.params (at_time 1700000200000 w1) r2 w2
         /\ status r2 = 200
         /\ history w2 = history Scenario.world ++ [entry; entry].
Proof.
  eexists _, _. split; [unfold answers; vm_compute; reflexivity|]. split; [reflexivity|].
  eapply (success_twice_audits_twice
            (Scenario.put [("author_name", JStr "alice"); ("category", JStr "AI")])
            Scenario.params Scenario.world);
    [unfold answers; vm_compute; reflexivity|reflexivity|unfold valid_time; simpl; lia].
Defined.
